(** * Polar_HR_Fan: heart-rate controlled fan (M5StickC sketch)

    A shallow embedding of [Polar_HR_Fan.ino] (the fan-controlling sketch,
    i.e. the second program of the source file) and the properties of its
    connection state machine, sample filter, fan-speed decision and fan
    actuation sequence.

    Modelling choices.
    - The sketch's global variables are the fields of the record [Machine];
      a statement is a function [Machine -> Machine] ([cmd]) and sequencing
      is function composition, written [c1 ;; c2].
    - Output (fan pin, serial port, LCD, calls into the BLE stack) is
      appended to [trace], newest event first; [history] gives it in
      program order.
    - Time is the field [now], the number of milliseconds since power-on as
      an unbounded integer.  [delay n] advances it by [n]; a blocking call
      into the BLE stack advances it by a duration chosen by the
      environment ([Env]).  [millis()] is [now] reduced modulo 2^32.
    - The body of [loop()] is cut into six consecutive phases, one per
      top-level statement group, and [pc] says which phase runs next.  The
      BLE callbacks ([heartRateNotifyCallback], [onDisconnect]) run on the
      BLE task; the model delivers them between two phases of [loop()].
      The scan callback [onResult] can only run while the blocking scan of
      [startScan] is in progress, so it is part of that phase and driven
      by [Env].  A phase or a callback runs as one step; the properties of
      whole executions below are about variables that only one of the two
      tasks writes, or hold for every order of the single assignments.
    - Left out: the address of the strap ([pServerAddress]), and the calls
      that only configure the display or the serial port (cursor, colour,
      text size, baud rate). *)

From Stdlib Require Import ZArith List String Bool Lia.
From Stdlib.Strings Require Import Byte.
Import ListNotations.
Local Open Scope string_scope.
Local Open Scope list_scope.
Local Open Scope Z_scope.

(** ** Platform: pins, output events, clock, [elapsedMillis] *)

(** [#define FAN_OUT 0], [BUTTON_NOT_PRESSED 0], [BUTTON_PRESSED 1] *)
Definition FAN_OUT : Z := 0.
Definition BUTTON_NOT_PRESSED : Z := 0.
Definition BUTTON_PRESSED : Z := 1.

(** Calls into the BLE stack that the sketch makes. *)
Inductive BleCall : Type :=
| BleInit
| BleGetScan
| BleSetAdvertisedDeviceCallbacks
| BleSetActiveScan (active : bool)
| BleClearResults
| BleScanStart (duration : Z) (is_continue : bool)
| BleScanStop
| BleConnect
| BleSetClientCallbacks
| BleGetService
| BleGetCharacteristic
| BleRegisterForNotify
| BleWriteNotificationOn.

(** Everything the sketch does to the outside world. *)
Inductive IO : Type :=
| EvPinMode (pin : Z)
| EvDigitalWrite (pin level : Z)
| EvDelay (ms : Z)
| EvSerial (msg : string)
| EvSerialNum (n : Z)
| EvLcd (msg : string)
| EvLcdNum (n : Z)
| EvBle (c : BleCall).

(** [uint8_t] payload bytes read as integers. *)
Definition u8 (b : byte) : Z := Z.of_N (Byte.to_N b).

Definition two32 : Z := 2 ^ 32.

(** [millis()]: a 32-bit unsigned counter of milliseconds. *)
Definition millis (now : Z) : Z := now mod two32.

(** The [elapsedMillis] class of the Arduino library of the same name (not
    part of this repository): it stores the value [ms] of [millis()] at
    which it would have been zero; reading it gives [millis() - ms] and
    assigning [val] sets [ms = millis() - val], both in 32-bit unsigned
    arithmetic. *)
Record elapsedMillis : Type := mkElapsed { ms : Z }.

Definition elapsed_read (now : Z) (t : elapsedMillis) : Z :=
  (millis now - ms t) mod two32.

Definition elapsed_assign (now : Z) (val : Z) : elapsedMillis :=
  mkElapsed ((millis now - val) mod two32).

(** ** The sketch's types *)

(** [enum state {stInit, stIdle, stScanning, stConnected}] *)
Inductive state : Type := stInit | stIdle | stScanning | stConnected.

(** [enum fanSpeeds {fsInit, fsOff, fsLow, fsMed, fsHigh}] *)
Inductive fanSpeeds : Type := fsInit | fsOff | fsLow | fsMed | fsHigh.

(** The integer values of the enumerators, as C++ assigns them; [==] and
    [!=] on the enums compare these. *)
Definition state_code (s : state) : Z :=
  match s with stInit => 0 | stIdle => 1 | stScanning => 2 | stConnected => 3 end.

Definition fanSpeeds_code (f : fanSpeeds) : Z :=
  match f with fsInit => 0 | fsOff => 1 | fsLow => 2 | fsMed => 3 | fsHigh => 4 end.

Definition state_eqb (a b : state) : bool := state_code a =? state_code b.
Definition fanSpeeds_eqb (a b : fanSpeeds) : bool :=
  fanSpeeds_code a =? fanSpeeds_code b.

(** The phases of one iteration of [loop()], in program order. *)
Inductive Phase : Type :=
| P_idle       (* if (myState == stIdle) { startScan(); ... }        *)
| P_connect    (* if (doConnect == true) { ... }                     *)
| P_display    (* if (newHeartRate || myOldState != myState) ...     *)
| P_decide     (* if (myState == stConnected) { ... } else ...       *)
| P_actuate    (* Serial.print...; if (fanLastSpeed != fanSpeed) ... *)
| P_end.       (* myOldState = myState; delay(1000);                 *)

(** One call of [setFanSpeed()] as seen from outside: when it started, when
    it returned, and the speed it was asked to set.  Kept in [actuations]
    for the timing properties; the sketch does not read it. *)
Record Actuation : Type := mkActuation {
  a_start : Z;
  a_end : Z;
  a_target : fanSpeeds
}.

(** The global variables of the sketch, followed by the clock, the output
    so far, the record of actuations and the position in [loop()]. *)
Record Machine : Type := mkMachine {
  doConnect : bool;
  connected : bool;
  heartRate : Z;
  newHeartRate : bool;
  pBLEScan : bool;                   (* false: still the null pointer *)
  myState : state;
  myOldState : state;
  fanSpeed : fanSpeeds;
  fanLastSpeed : fanSpeeds;
  msSinceFanChange : elapsedMillis;
  now : Z;
  trace : list IO;
  actuations : list Actuation;
  pc : Phase
}.

(** What the environment decides during one phase of [loop()]. *)
Inductive ConnectResult : Type :=
| NotConnected       (* pClient->isConnected() is false           *)
| NoService          (* getService returned nullptr               *)
| NoCharacteristic   (* getCharacteristic returned nullptr        *)
| Ready.             (* connected, characteristic found           *)

Record Env : Type := mkEnv {
  scanHit : bool;          (* an advertisement with the service UUID arrives *)
  scanTime : N;            (* how long pBLEScan->start blocks, ms            *)
  server : ConnectResult;  (* how connectToServer ends                       *)
  connectTime : N          (* how long connectToServer blocks, ms            *)
}.

(** ** Statements *)

Definition cmd : Type := Machine -> Machine.

Definition seq (c1 c2 : cmd) : cmd := fun m => c2 (c1 m).
Notation "c1 ;; c2" := (seq c1 c2) (at level 61, right associativity).

Definition skip : cmd := fun m => m.

Definition set_doConnect (v : bool) : cmd := fun m =>
  mkMachine v (connected m) (heartRate m) (newHeartRate m) (pBLEScan m)
    (myState m) (myOldState m) (fanSpeed m) (fanLastSpeed m)
    (msSinceFanChange m) (now m) (trace m) (actuations m) (pc m).
Definition set_connected (v : bool) : cmd := fun m =>
  mkMachine (doConnect m) v (heartRate m) (newHeartRate m) (pBLEScan m)
    (myState m) (myOldState m) (fanSpeed m) (fanLastSpeed m)
    (msSinceFanChange m) (now m) (trace m) (actuations m) (pc m).
Definition set_heartRate (v : Z) : cmd := fun m =>
  mkMachine (doConnect m) (connected m) v (newHeartRate m) (pBLEScan m)
    (myState m) (myOldState m) (fanSpeed m) (fanLastSpeed m)
    (msSinceFanChange m) (now m) (trace m) (actuations m) (pc m).
Definition set_newHeartRate (v : bool) : cmd := fun m =>
  mkMachine (doConnect m) (connected m) (heartRate m) v (pBLEScan m)
    (myState m) (myOldState m) (fanSpeed m) (fanLastSpeed m)
    (msSinceFanChange m) (now m) (trace m) (actuations m) (pc m).
Definition set_pBLEScan (v : bool) : cmd := fun m =>
  mkMachine (doConnect m) (connected m) (heartRate m) (newHeartRate m) v
    (myState m) (myOldState m) (fanSpeed m) (fanLastSpeed m)
    (msSinceFanChange m) (now m) (trace m) (actuations m) (pc m).
Definition set_myState (v : state) : cmd := fun m =>
  mkMachine (doConnect m) (connected m) (heartRate m) (newHeartRate m)
    (pBLEScan m) v (myOldState m) (fanSpeed m) (fanLastSpeed m)
    (msSinceFanChange m) (now m) (trace m) (actuations m) (pc m).
Definition set_myOldState (v : state) : cmd := fun m =>
  mkMachine (doConnect m) (connected m) (heartRate m) (newHeartRate m)
    (pBLEScan m) (myState m) v (fanSpeed m) (fanLastSpeed m)
    (msSinceFanChange m) (now m) (trace m) (actuations m) (pc m).
Definition set_fanSpeed (v : fanSpeeds) : cmd := fun m =>
  mkMachine (doConnect m) (connected m) (heartRate m) (newHeartRate m)
    (pBLEScan m) (myState m) (myOldState m) v (fanLastSpeed m)
    (msSinceFanChange m) (now m) (trace m) (actuations m) (pc m).
Definition set_fanLastSpeed (v : fanSpeeds) : cmd := fun m =>
  mkMachine (doConnect m) (connected m) (heartRate m) (newHeartRate m)
    (pBLEScan m) (myState m) (myOldState m) (fanSpeed m) v
    (msSinceFanChange m) (now m) (trace m) (actuations m) (pc m).
Definition set_msSinceFanChange (v : elapsedMillis) : cmd := fun m =>
  mkMachine (doConnect m) (connected m) (heartRate m) (newHeartRate m)
    (pBLEScan m) (myState m) (myOldState m) (fanSpeed m) (fanLastSpeed m)
    v (now m) (trace m) (actuations m) (pc m).
Definition set_now (v : Z) : cmd := fun m =>
  mkMachine (doConnect m) (connected m) (heartRate m) (newHeartRate m)
    (pBLEScan m) (myState m) (myOldState m) (fanSpeed m) (fanLastSpeed m)
    (msSinceFanChange m) v (trace m) (actuations m) (pc m).
Definition set_trace (v : list IO) : cmd := fun m =>
  mkMachine (doConnect m) (connected m) (heartRate m) (newHeartRate m)
    (pBLEScan m) (myState m) (myOldState m) (fanSpeed m) (fanLastSpeed m)
    (msSinceFanChange m) (now m) v (actuations m) (pc m).
Definition set_actuations (v : list Actuation) : cmd := fun m =>
  mkMachine (doConnect m) (connected m) (heartRate m) (newHeartRate m)
    (pBLEScan m) (myState m) (myOldState m) (fanSpeed m) (fanLastSpeed m)
    (msSinceFanChange m) (now m) (trace m) v (pc m).
Definition set_pc (v : Phase) : cmd := fun m =>
  mkMachine (doConnect m) (connected m) (heartRate m) (newHeartRate m)
    (pBLEScan m) (myState m) (myOldState m) (fanSpeed m) (fanLastSpeed m)
    (msSinceFanChange m) (now m) (trace m) (actuations m) v.

(** Output and time. *)
Definition emit (ev : IO) : cmd := fun m => set_trace (ev :: trace m) m.
Definition elapse (d : Z) : cmd := fun m => set_now (now m + d) m.

Definition pinMode (pin : Z) : cmd := emit (EvPinMode pin).
Definition digitalWrite (pin level : Z) : cmd := emit (EvDigitalWrite pin level).
Definition delay (n : Z) : cmd := emit (EvDelay n) ;; elapse n.
Definition Serial_print (msg : string) : cmd := emit (EvSerial msg).
Definition Serial_printNum (n : Z) : cmd := emit (EvSerialNum n).
Definition Lcd_print (msg : string) : cmd := emit (EvLcd msg).
Definition Lcd_printNum (n : Z) : cmd := emit (EvLcdNum n).
Definition ble (c : BleCall) : cmd := emit (EvBle c).

(** The output so far, oldest event first. *)
Definition history (m : Machine) : list IO := rev (trace m).

(** The writes to the fan control line among a list of events. *)
Definition fanLine (evs : list IO) : list IO :=
  filter (fun ev => match ev with
                    | EvDigitalWrite pin _ => pin =? FAN_OUT
                    | _ => false
                    end) evs.

(** [for (int i = lo; i <= hi; i++) body(i)]; the iteration count is known
    on entry, [fuel] is that count. *)
Fixpoint for_upto (fuel : nat) (i hi : Z) (body : Z -> cmd) : cmd :=
  match fuel with
  | O => skip
  | S fuel' =>
      if i <=? hi then body i ;; for_upto fuel' (i + 1) hi body else skip
  end.

Definition for_le (lo hi : Z) (body : Z -> cmd) : cmd :=
  for_upto (Z.to_nat (hi + 1 - lo)) lo hi body.

(** [Serial.println]: the text, then carriage return and line feed. *)
Definition crlf : string :=
  String (Ascii.ascii_of_nat 13) (String (Ascii.ascii_of_nat 10) EmptyString).
Definition Serial_println (msg : string) : cmd :=
  Serial_print msg ;; Serial_print crlf.
Definition Serial_printlnNum (n : Z) : cmd :=
  Serial_printNum n ;; Serial_print crlf.
Definition Lcd_println (msg : string) : cmd := Lcd_print msg ;; Lcd_print crlf.
Definition Lcd_printlnNum (n : Z) : cmd := Lcd_printNum n ;; Lcd_print crlf.

(** An expression statement: the value is computed and dropped. *)
Definition expr_stmt {A : Type} (value : A) : cmd := skip.

(** ** The sketch *)

(** Power-on values of the globals; [msSinceFanChange] is constructed
    before [setup()] runs, when [millis()] is 0. *)
Definition boot : Machine :=
  {| doConnect := false;
     connected := false;
     heartRate := 0;
     newHeartRate := false;
     pBLEScan := false;
     myState := stIdle;
     myOldState := stInit;
     fanSpeed := fsOff;
     fanLastSpeed := fsInit;
     msSinceFanChange := mkElapsed 0;
     now := 0;
     trace := [];
     actuations := [];
     pc := P_idle |}.

(** [MyClientCallback::onDisconnect] *)
Definition onDisconnect : cmd :=
  set_connected false ;;
  Serial_println "onDisconnect" ;;
  set_myState stIdle.

(** [connectToServer]: how far it gets is the environment's choice [r]; the
    result is the returned [bool] and the machine afterwards. *)
Definition connectToServer (e : Env) (m : Machine) : bool * Machine :=
  let m := (ble BleConnect ;; elapse (Z.of_N (connectTime e))) m in
  match server e with
  | NotConnected => (false, Serial_println " - Not connected to server" m)
  | r =>
      let m := (ble BleSetClientCallbacks ;;
                Serial_println " - Connected to server" ;;
                ble BleGetService) m in
      match r with
      | NoService =>
          (false, (Serial_print "Failed to find our service UUID: " ;;
                   Serial_println "0000180d-0000-1000-8000-00805f9b34fb") m)
      | r =>
          let m := (Serial_println " - Got service" ;;
                    ble BleGetCharacteristic) m in
          match r with
          | NoCharacteristic =>
              (false, Serial_print "Failed to find our characteristic UUID" m)
          | _ =>
              (true, (Serial_println " - Found our characteristics" ;;
                      ble BleRegisterForNotify) m)
          end
      end
  end.

(** [MyAdvertisedDeviceCallbacks::onResult] for an advertisement that
    carries ([matches]) or does not carry the heart-rate service UUID. *)
Definition onResult (matches : bool) : cmd :=
  if matches
  then ble BleScanStop ;;
       set_doConnect true ;;
       Serial_println "Device found. Connecting!"
  else skip.

(** The loop of [heartRateNotifyCallback] that prints the payload. *)
Fixpoint print_payload (pData : list byte) : cmd :=
  match pData with
  | [] => skip
  | b :: rest => Serial_printNum (u8 b) ;; Serial_print " " ;; print_payload rest
  end.

(** [heartRateNotifyCallback (_, pData, length, _)]; [length] is the length
    of [pData]. *)
Definition heartRateNotifyCallback (pData : list byte) : cmd := fun m =>
  if Z.of_nat (List.length pData) <? 2
  then Serial_print "Characteristic data too short" m
  else
    let b := u8 (nth 1 pData x00) in
    ((if (0 <? b) && negb (heartRate m =? b)
      then set_heartRate b ;; set_newHeartRate true
      else skip) ;;
     Serial_print "Notify callback for characteristic " ;;
     print_payload pData ;;
     Serial_print crlf) m.

(** [updateDisplay] *)
Definition updateDisplay : cmd := fun m =>
  ((match myState m with
    | stIdle => Lcd_println "Idle"
    | stScanning => Lcd_println "Scanning"
    | stConnected =>
        Lcd_println "Connected" ;;
        Lcd_print "HR:" ;;
        Lcd_printlnNum (heartRate m) ;;
        Serial_print "HR: " ;;
        Serial_printlnNum (heartRate m)
    | stInit => skip
    end) ;;
   Lcd_println "FAN SPEED:" ;;
   (match fanSpeed m with
    | fsOff => Lcd_println "0"
    | fsLow => Lcd_println "L"
    | fsMed => Lcd_println "M"
    | fsHigh => Lcd_println "H"
    | fsInit => skip
    end)) m.

(** [startScan]; the scan blocks for [scanTime e] and [onResult] runs
    inside it when a matching advertisement arrives. *)
Definition startScan (e : Env) : cmd := fun m =>
  ((if negb (pBLEScan m)
    then ble BleGetScan ;;
         set_pBLEScan true ;;
         ble BleSetAdvertisedDeviceCallbacks ;;
         ble (BleSetActiveScan true) ;;
         Serial_println "Starting scan"
    else Serial_println "Re-starting scan") ;;
   ble BleClearResults ;;
   ble (BleScanStart 5 false) ;;
   elapse (Z.of_N (scanTime e)) ;;
   onResult (scanHit e)) m.

(** The press count chosen by the [switch] of [setFanSpeed]; [presses] is
    initialised to 0 and the [default] branch leaves it alone. *)
Definition presses_for (speed : fanSpeeds) : Z :=
  match speed with
  | fsOff => 0
  | fsLow => 3
  | fsMed => 2
  | fsHigh => 1
  | fsInit => 0
  end.

(** [setFanSpeed] *)
Definition setFanSpeed : cmd := fun m =>
  (digitalWrite FAN_OUT BUTTON_PRESSED ;;
   delay 3000 ;;
   digitalWrite FAN_OUT BUTTON_NOT_PRESSED ;;
   (fun m' =>
      let presses := presses_for (fanSpeed m') in
      for_le 1 presses
        (fun _ =>
           delay 250 ;;
           digitalWrite FAN_OUT BUTTON_PRESSED ;;
           delay 250 ;;
           digitalWrite FAN_OUT BUTTON_NOT_PRESSED) m')) m.

(** [setup]; [d] is the time it takes. *)
Definition setup (d : N) : cmd :=
  Lcd_print "BLE Client" ;;
  Serial_println "Starting Arduino BLE Client application..." ;;
  pinMode FAN_OUT ;;
  digitalWrite FAN_OUT BUTTON_NOT_PRESSED ;;
  ble BleInit ;;
  elapse (Z.of_N d).

(** *** The phases of [loop()] *)

(** [if (myState == stIdle) { startScan(); myState == stScanning; }] *)
Definition loop_idle (e : Env) : cmd := fun m =>
  if state_eqb (myState m) stIdle
  then (startScan e ;;
        (fun m' => expr_stmt (state_eqb (myState m') stScanning) m')) m
  else m.

(** [if (doConnect == true) { if (connectToServer(...)) {...} else {...} }] *)
Definition loop_connect (e : Env) : cmd := fun m =>
  if doConnect m
  then
    let (ok, m1) := connectToServer e m in
    if ok
    then (Serial_println "We are now connected to the BLE Server." ;;
          ble BleWriteNotificationOn ;;
          set_connected true ;;
          set_myState stConnected ;;
          ble BleScanStop ;;
          set_doConnect false) m1
    else Serial_println
           "We have failed to connect to the server; Restart your device to scan for nearby BLE server again."
           m1
  else m.

(** [if (newHeartRate || (myOldState != myState)) updateDisplay();] *)
Definition loop_display : cmd := fun m =>
  if newHeartRate m || negb (state_eqb (myOldState m) (myState m))
  then updateDisplay m
  else m.

(** The fan-speed decision: [if (myState == stConnected) {...} else
    fanSpeed = fsOff;] *)
Definition loop_decide : cmd := fun m =>
  if state_eqb (myState m) stConnected
  then
    if newHeartRate m
    then
      (set_newHeartRate false ;;
       (fun m' =>
          if 15000 <? elapsed_read (now m') (msSinceFanChange m')
          then
            if 130 <? heartRate m' then set_fanSpeed fsHigh m'
            else if 115 <? heartRate m' then set_fanSpeed fsMed m'
            else if 100 <? heartRate m' then set_fanSpeed fsLow m'
            else set_fanSpeed fsOff m'
          else m')) m
    else m
  else set_fanSpeed fsOff m.

(** [setFanSpeed()] as called from [loop()], with the call recorded. *)
Definition call_setFanSpeed : cmd := fun m =>
  let m' := setFanSpeed m in
  set_actuations
    (actuations m ++ [mkActuation (now m) (now m') (fanSpeed m)]) m'.

(** The report on the serial port and [if (fanLastSpeed != fanSpeed) {...}] *)
Definition loop_actuate : cmd := fun m =>
  ((fun m' => Serial_printNum (elapsed_read (now m') (msSinceFanChange m')) m') ;;
   Serial_print " " ;;
   (fun m' => Serial_printNum (fanSpeeds_code (fanLastSpeed m')) m') ;;
   Serial_print " " ;;
   (fun m' => Serial_printlnNum (fanSpeeds_code (fanSpeed m')) m') ;;
   (fun m' =>
      if negb (fanSpeeds_eqb (fanLastSpeed m') (fanSpeed m'))
      then (updateDisplay ;;
            call_setFanSpeed ;;
            (fun m2 => set_msSinceFanChange (elapsed_assign (now m2) 0) m2) ;;
            (fun m2 => set_fanLastSpeed (fanSpeed m2) m2)) m'
      else m')) m.

(** [myOldState = myState; delay(1000);] *)
Definition loop_end : cmd :=
  (fun m => set_myOldState (myState m) m) ;;
  delay 1000.

(** One iteration of [loop()] during which no BLE callback interferes. *)
Definition loop (e : Env) : cmd :=
  loop_idle e ;; loop_connect e ;; loop_display ;; loop_decide ;;
  loop_actuate ;; loop_end.

(** *** Interleaving with the BLE task *)

Inductive Action : Type :=
| Main (e : Env)               (* loop() runs its next phase            *)
| Notify (pData : list byte)   (* heartRateNotifyCallback is delivered  *)
| Disconnect.                  (* onDisconnect is delivered             *)

Definition next_phase (p : Phase) : Phase :=
  match p with
  | P_idle => P_connect
  | P_connect => P_display
  | P_display => P_decide
  | P_decide => P_actuate
  | P_actuate => P_end
  | P_end => P_idle
  end.

Definition run_phase (e : Env) : cmd := fun m =>
  set_pc (next_phase (pc m))
    (match pc m with
     | P_idle => loop_idle e m
     | P_connect => loop_connect e m
     | P_display => loop_display m
     | P_decide => loop_decide m
     | P_actuate => loop_actuate m
     | P_end => loop_end m
     end).

Definition step (a : Action) : cmd :=
  match a with
  | Main e => run_phase e
  | Notify pData => heartRateNotifyCallback pData
  | Disconnect => onDisconnect
  end.

Definition run (acts : list Action) (m : Machine) : Machine :=
  fold_left (fun m a => step a m) acts m.

(** The machine when [loop()] is entered for the first time. *)
Definition power_on (d : N) : Machine := setup d boot.

(** ** Vocabulary of the properties *)

(** The value read from [msSinceFanChange] in machine [m]. *)
Definition ms_since (m : Machine) : Z :=
  elapsed_read (now m) (msSinceFanChange m).

(** The report that [loop()] prints before looking at the speeds. *)
Definition report (m : Machine) : list IO :=
  [EvSerialNum (ms_since m); EvSerial " ";
   EvSerialNum (fanSpeeds_code (fanLastSpeed m)); EvSerial " ";
   EvSerialNum (fanSpeeds_code (fanSpeed m)); EvSerial crlf].

(** The sketch's global variables, without clock, output and bookkeeping. *)
Definition globals (m : Machine) :=
  (doConnect m, connected m, heartRate m, newHeartRate m, pBLEScan m,
   myState m, myOldState m, fanSpeed m, fanLastSpeed m, msSinceFanChange m).

(** The variables that drive the fan. *)
Definition fan_vars (m : Machine) :=
  (fanSpeed m, fanLastSpeed m, msSinceFanChange m, actuations m).

(** Statement [c], started in [m], outputs exactly [evs]. *)
Definition emits (c : cmd) (m : Machine) (evs : list IO) : Prop :=
  history (c m) = history m ++ evs.

(** What statement [c] outputs when started in [m]: run it on an empty
    trace and read the trace. *)
Definition output_of (c : cmd) (m : Machine) : list IO :=
  rev (trace (c (set_trace [] m))).

(** The long press that switches the fan off, and one short press. *)
Definition hold_off : list IO :=
  [EvDigitalWrite FAN_OUT BUTTON_PRESSED; EvDelay 3000;
   EvDigitalWrite FAN_OUT BUTTON_NOT_PRESSED].

Definition short_press : list IO :=
  [EvDelay 250; EvDigitalWrite FAN_OUT BUTTON_PRESSED;
   EvDelay 250; EvDigitalWrite FAN_OUT BUTTON_NOT_PRESSED].

Fixpoint short_presses (n : nat) : list IO :=
  match n with
  | O => []
  | S n' => short_press ++ short_presses n'
  end.

(** The thresholds as the specification words them: first match wins,
    from high to low. *)
Definition spec_desiredSpeed (bpm : Z) : fanSpeeds :=
  if bpm >? 130 then fsHigh
  else if bpm >? 115 then fsMed
  else if bpm >? 100 then fsLow
  else fsOff.

(** Time from the end of each actuation to the start of the next. *)
Fixpoint gaps (l : list Actuation) : list Z :=
  match l with
  | [] => []
  | a :: rest =>
      match rest with
      | [] => []
      | b :: _ => (a_start b - a_end a) :: gaps rest
      end
  end.

(** The dwell requirement: no actuation starts less than 15000 ms after the
    previous one ended. *)
Definition dwell_respected (l : list Actuation) : Prop :=
  Forall (fun g => 15000 <= g) (gaps l).

(** Output events of interest, and how many of them a list holds. *)
Definition is_clear_results (ev : IO) : bool :=
  match ev with EvBle BleClearResults => true | _ => false end.
Definition is_scan_start (ev : IO) : bool :=
  match ev with EvBle (BleScanStart _ false) => true | _ => false end.
Definition count_events (f : IO -> bool) (evs : list IO) : nat :=
  List.length (filter f evs).

(** Counting the actions of a schedule. *)
Definition is_main (a : Action) : bool :=
  match a with Main _ => true | _ => false end.
Definition is_notify (a : Action) : bool :=
  match a with Notify _ => true | _ => false end.
Definition mains (acts : list Action) : nat :=
  List.length (filter is_main acts).
Definition has_notify (acts : list Action) : bool := existsb is_notify acts.

(** The phase that runs next after [k] phases of the first iteration. *)
Definition phase_at (k : nat) : Phase :=
  match k with
  | 0 => P_idle | 1 => P_connect | 2 => P_display | 3 => P_decide
  | 4 => P_actuate | 5 => P_end | _ => P_idle
  end%nat.

(** What is known about an actuation of the first iteration: its length
    matches its target, the target is a real speed, and it is Off unless a
    notification was delivered ([n]) and it started later than 15000 ms
    after power-on. *)
Definition first_actuation (n : bool) (a : Actuation) : Prop :=
  a_end a = a_start a + 3000 + 500 * presses_for (a_target a) /\
  a_target a <> fsInit /\
  (a_target a = fsOff \/ (n = true /\ 15000 < a_start a)).

(** The machine after [k] phases of the first iteration of [loop()], [n]
    telling whether a notification was delivered so far. *)
Definition first_iteration (k : nat) (n : bool) (m : Machine) : Prop :=
  pc m = phase_at k /\ 0 <= now m /\
  if (k <=? 4)%nat
  then fanLastSpeed m = fsInit /\ actuations m = [] /\
       msSinceFanChange m = mkElapsed 0 /\
       (if (k <=? 3)%nat
        then fanSpeed m = fsOff /\ (newHeartRate m = true -> n = true)
        else fanSpeed m = fsOff \/
             (n = true /\ 15000 < now m /\ fanSpeed m <> fsInit))
  else exists a, actuations m = [a] /\ first_actuation n a.

(** *** Environments, schedules and machines used as examples *)

(** A scan that runs its full 5 s and finds nothing. *)
Definition env_miss : Env := mkEnv false 5000 NotConnected 0.
(** The strap answers after 2 s and the connection takes 1 s. *)
Definition env_hit : Env := mkEnv true 2000 Ready 1000.
(** The strap answers at the end of the scan; connecting takes 11 s. *)
Definition env_slow : Env := mkEnv true 5000 Ready 11000.

(** One whole iteration of [loop()]. *)
Definition tick (e : Env) : list Action := repeat (Main e) 6.

(** A notification: flags byte 0x16, then the heart rate. *)
Definition bpm135 : list byte := [x16; x87].
Definition bpm120 : list byte := [x16; x78].

(** Three idle iterations, then the strap is found and connected, 135 bpm
    is reported, the fan goes to High; the link drops during the delay at
    the end of that iteration and the next iteration switches the fan
    off. *)
Definition dwell_schedule : list Action :=
  tick env_miss ++ tick env_miss ++ tick env_miss ++ tick env_hit ++
  [Notify bpm135] ++ tick env_hit ++ [Disconnect] ++ tick env_miss.

(** First iteration: the strap is found, connecting is slow, and a
    notification arrives right after the connection is made, before the
    decision is taken. *)
Definition late_connect_schedule : list Action :=
  [Main env_slow; Main env_slow; Notify bpm135;
   Main env_slow; Main env_slow; Main env_slow; Main env_slow].

(** Connected, 135 bpm pending, fan off, 5 s after the last actuation. *)
Definition early_sample : Machine :=
  {| doConnect := false; connected := true; heartRate := 135;
     newHeartRate := true; pBLEScan := true; myState := stConnected;
     myOldState := stConnected; fanSpeed := fsOff; fanLastSpeed := fsOff;
     msSinceFanChange := mkElapsed 8000; now := 13000; trace := [];
     actuations := [mkActuation 5000 8000 fsOff]; pc := P_decide |}.

(** Connected, [v] bpm pending, 20 s after the last actuation. *)
Definition due_sample (v : Z) : Machine :=
  {| doConnect := false; connected := true; heartRate := v;
     newHeartRate := true; pBLEScan := true; myState := stConnected;
     myOldState := stConnected; fanSpeed := fsOff; fanLastSpeed := fsOff;
     msSinceFanChange := mkElapsed 8000; now := 28000; trace := [];
     actuations := [mkActuation 5000 8000 fsOff]; pc := P_decide |}.

(** Connected, 120 bpm latched and still pending, fan on Med. *)
Definition stale_sample : Machine :=
  {| doConnect := false; connected := true; heartRate := 120;
     newHeartRate := true; pBLEScan := true; myState := stConnected;
     myOldState := stConnected; fanSpeed := fsMed; fanLastSpeed := fsMed;
     msSinceFanChange := mkElapsed 8000; now := 30000; trace := [];
     actuations := [mkActuation 5000 8000 fsMed]; pc := P_end |}.

(** Link lost: the state is idle again but 150 bpm is still latched and
    pending, and the fan is still on High. *)
Definition lost_link : Machine :=
  {| doConnect := false; connected := false; heartRate := 150;
     newHeartRate := true; pBLEScan := true; myState := stIdle;
     myOldState := stConnected; fanSpeed := fsHigh; fanLastSpeed := fsHigh;
     msSinceFanChange := mkElapsed 8000; now := 30000; trace := [];
     actuations := [mkActuation 4500 8000 fsHigh]; pc := P_decide |}.

(** *** Statements that the code does not satisfy, as they are worded *)

(** "A new sample arriving while Connected updates DesiredSpeed, whatever
    the dwell timer says." *)
Definition decision_ignores_dwell (m : Machine) : Prop :=
  myState m = stConnected -> newHeartRate m = true ->
  fanSpeed (loop_decide m) = spec_desiredSpeed (heartRate m).

(** "A disconnect while Connected makes the state Idle and clears the
    latched heart rate and the pending flag." *)
Definition disconnect_clears_sample (m : Machine) : Prop :=
  myState m = stConnected ->
  myState (onDisconnect m) = stIdle /\
  heartRate (onDisconnect m) = 0 /\
  newHeartRate (onDisconnect m) = false.

(** "The first iteration of [loop()] performs one actuation, with target
    Off." *)
Definition first_iteration_drives_off (d : N) (acts : list Action) : Prop :=
  mains acts = 6%nat ->
  exists a, actuations (run acts (power_on d)) = [a] /\ a_target a = fsOff.

(** *** Vocabulary of the properties of whole executions *)

(** The machines the sketch can be in: some schedule of phases and
    callbacks after power-on leads there. *)
Definition reachable (m : Machine) : Prop :=
  exists (d : N) (acts : list Action), m = run acts (power_on d).

(** Several iterations of [loop()] in a row, none interleaved with a
    callback. *)
Fixpoint loops (es : list Env) (m : Machine) : Machine :=
  match es with
  | [] => m
  | e :: rest => loops rest (loop e m)
  end.

(** The end and the target of the last of a list of actuations, [e0] and
    [t0] when there is none. *)
Definition last_end (e0 : Z) (l : list Actuation) : Z :=
  fold_left (fun _ a => a_end a) l e0.
Definition last_target (t0 : fanSpeeds) (l : list Actuation) : fanSpeeds :=
  fold_left (fun _ a => a_target a) l t0.

(** One actuation after a previous one that ended at [e0] with target
    [t0]: it starts no earlier, lasts as long as its target requires,
    has a real target that differs from the previous one, and unless it
    switches the fan off it starts more than 15000 ms later. *)
Definition follows (e0 : Z) (t0 : fanSpeeds) (a : Actuation) : Prop :=
  e0 <= a_start a /\
  a_end a = a_start a + 3000 + 500 * presses_for (a_target a) /\
  a_target a <> fsInit /\
  a_target a <> t0 /\
  (a_target a <> fsOff -> 15000 < a_start a - e0).

Fixpoint timeline (e0 : Z) (t0 : fanSpeeds) (l : list Actuation) : Prop :=
  match l with
  | [] => True
  | a :: rest => follows e0 t0 a /\ timeline (a_end a) (a_target a) rest
  end.

(** The writes to the fan line that one actuation makes. *)
Definition line_of (a : Actuation) : list IO :=
  fanLine (hold_off ++ short_presses (Z.to_nat (presses_for (a_target a)))).

(** More output events of interest. *)
Definition is_get_scan (ev : IO) : bool :=
  match ev with EvBle BleGetScan => true | _ => false end.
Definition is_ble (ev : IO) : bool :=
  match ev with EvBle _ => true | _ => false end.
Definition is_connect (ev : IO) : bool :=
  match ev with EvBle BleConnect => true | _ => false end.
Definition is_set_callbacks (ev : IO) : bool :=
  match ev with EvBle BleSetAdvertisedDeviceCallbacks => true | _ => false end.
Definition is_set_active (ev : IO) : bool :=
  match ev with EvBle (BleSetActiveScan true) => true | _ => false end.

(** A schedule that delivers callbacks only: [loop()] does not advance. *)
Definition callbacks_only (acts : list Action) : bool :=
  forallb (fun a => negb (is_main a)) acts.

(** The latched heart rate is a byte, and a pending sample is never 0. *)
Definition sample_consistent (m : Machine) : Prop :=
  0 <= heartRate m < 256 /\ (newHeartRate m = true -> heartRate m <> 0).

(** The fan bookkeeping after any number of steps: the timer was last set
    to zero when the last actuation ended, the applied speed is the target
    of the last actuation, the recorded actuations form a [timeline], and
    the desired speed differs from the applied one only between the
    decision and the actuation of an iteration (or before the very first
    actuation), and then only to switch off or with the dwell elapsed. *)
Definition fan_consistent (m : Machine) : Prop :=
  let e := last_end 0 (actuations m) in
  0 <= e <= now m /\
  msSinceFanChange m = mkElapsed (e mod two32) /\
  fanSpeed m <> fsInit /\
  fanLastSpeed m = last_target fsInit (actuations m) /\
  timeline 0 fsInit (actuations m) /\
  (fanSpeed m = fanLastSpeed m \/ fanSpeed m = fsOff \/
   (pc m = P_actuate /\ 15000 < now m - e)) /\
  (fanSpeed m <> fanLastSpeed m -> pc m <> P_actuate -> actuations m = []).

(** Connected, nothing pending, no connection attempt pending, the applied
    speed is the desired one, at the top of [loop()]. *)
Definition quiet (m : Machine) : Prop :=
  pc m = P_idle /\ myState m = stConnected /\ doConnect m = false /\
  newHeartRate m = false /\ fanLastSpeed m = fanSpeed m.

(** Connected and quiet, fan on High, 40 s after power-on. *)
Definition settled : Machine :=
  {| doConnect := false; connected := true; heartRate := 135;
     newHeartRate := false; pBLEScan := true; myState := stConnected;
     myOldState := stConnected; fanSpeed := fsHigh; fanLastSpeed := fsHigh;
     msSinceFanChange := mkElapsed 28500; now := 40000; trace := [];
     actuations := [mkActuation 5000 8000 fsOff;
                    mkActuation 25000 28500 fsHigh];
     pc := P_idle |}.


(** The machine at the end of [dwell_schedule]. *)
Definition example_run : Machine := run dwell_schedule (power_on 0).

(** The connection attempt fails: the strap does not answer. *)
Definition env_fail : Env := mkEnv true 2000 NotConnected 30000.

(** ** The plain BLE client

    The source file also holds the sketch the fan controller grew out of
    (its first 225 lines): it connects to the strap and shows every
    reading, without filter, fan or state machine.  It scans once, in
    [setup()].  Its [loop()] is short and is modelled as one step; the
    callbacks are delivered between two iterations. *)
Module Client.

Record Machine : Type := mkMachine {
  doConnect : bool;
  connected : bool;
  heartRateChar : Z;      (* the byte, kept in a [char*] variable *)
  newHeartRate : bool;
  now : Z;
  trace : list IO
}.

Definition cmd : Type := Machine -> Machine.
Definition andthen (c1 c2 : cmd) : cmd := fun m => c2 (c1 m).
Local Notation "c1 >> c2" := (andthen c1 c2)
  (at level 61, right associativity).
Definition skip : cmd := fun m => m.

Definition set_doConnect (v : bool) : cmd := fun m =>
  mkMachine v (connected m) (heartRateChar m) (newHeartRate m) (now m)
    (trace m).
Definition set_connected (v : bool) : cmd := fun m =>
  mkMachine (doConnect m) v (heartRateChar m) (newHeartRate m) (now m)
    (trace m).
Definition set_heartRateChar (v : Z) : cmd := fun m =>
  mkMachine (doConnect m) (connected m) v (newHeartRate m) (now m)
    (trace m).
Definition set_newHeartRate (v : bool) : cmd := fun m =>
  mkMachine (doConnect m) (connected m) (heartRateChar m) v (now m)
    (trace m).
Definition emit (ev : IO) : cmd := fun m =>
  mkMachine (doConnect m) (connected m) (heartRateChar m) (newHeartRate m)
    (now m) (ev :: trace m).
Definition elapse (d : Z) : cmd := fun m =>
  mkMachine (doConnect m) (connected m) (heartRateChar m) (newHeartRate m)
    (now m + d) (trace m).

Definition delay (n : Z) : cmd := emit (EvDelay n) >> elapse n.
Definition Serial_print (msg : string) : cmd := emit (EvSerial msg).
Definition Serial_println (msg : string) : cmd :=
  Serial_print msg >> Serial_print crlf.
Definition Serial_printNum (n : Z) : cmd := emit (EvSerialNum n).
Definition Lcd_print (msg : string) : cmd := emit (EvLcd msg).
Definition ble (c : BleCall) : cmd := emit (EvBle c).

Definition boot : Machine :=
  {| doConnect := false; connected := false; heartRateChar := 0;
     newHeartRate := false; now := 0; trace := [] |}.

(** [MyClientCallback::onDisconnect] *)
Definition onDisconnect : cmd :=
  set_connected false >> Serial_println "onDisconnect".

(** [connectToServer] *)
Definition connectToServer (e : Env) (m : Machine) : bool * Machine :=
  let m := (ble BleConnect >> elapse (Z.of_N (connectTime e))) m in
  match server e with
  | NotConnected => (false, Serial_println " - Not connected to server" m)
  | r =>
      let m := (ble BleSetClientCallbacks >>
                Serial_println " - Connected to server" >>
                ble BleGetService) m in
      match r with
      | NoService =>
          (false, (Serial_print "Failed to find our service UUID: " >>
                   Serial_println "0000180d-0000-1000-8000-00805f9b34fb") m)
      | r =>
          let m := (Serial_println " - Got service" >>
                    ble BleGetCharacteristic) m in
          match r with
          | NoCharacteristic =>
              (false,
               Serial_print "Failed to find our characteristic UUID" m)
          | _ =>
              (true, (Serial_println " - Found our characteristics" >>
                      ble BleRegisterForNotify) m)
          end
      end
  end.

(** [MyAdvertisedDeviceCallbacks::onResult] *)
Definition onResult (matches : bool) : cmd :=
  if matches
  then ble BleScanStop >>
       set_doConnect true >>
       Serial_println "Device found. Connecting!"
  else skip.

Fixpoint print_payload (pData : list byte) : cmd :=
  match pData with
  | [] => skip
  | b :: rest =>
      Serial_printNum (u8 b) >> Serial_print " " >> print_payload rest
  end.

(** [heartRateNotifyCallback]: no filter, the second byte is stored as it
    comes. *)
Definition heartRateNotifyCallback (pData : list byte) : cmd := fun m =>
  if Z.of_nat (List.length pData) <? 2
  then Serial_print "Characteristic data too short" m
  else
    (set_heartRateChar (u8 (nth 1 pData x00)) >>
     set_newHeartRate true >>
     Serial_print "Notify callback for characteristic " >>
     print_payload pData >>
     Serial_print crlf) m.

(** [printReadings]: the value is formatted with [%u] and shown. *)
Definition printReadings : cmd := fun m =>
  (Lcd_print "HR: " >>
   emit (EvLcdNum (heartRateChar m)) >> Lcd_print crlf >>
   Serial_print "HR:" >>
   Serial_printNum (heartRateChar m) >> Serial_print crlf) m.

(** [setup]: the only scan of this sketch, blocking for up to 30 s. *)
Definition setup (e : Env) : cmd :=
  Lcd_print "BLE Client" >>
  Serial_println "Starting Arduino BLE Client application..." >>
  ble BleInit >>
  ble BleGetScan >>
  ble BleSetAdvertisedDeviceCallbacks >>
  ble (BleSetActiveScan true) >>
  ble (BleScanStart 30 false) >>
  elapse (Z.of_N (scanTime e)) >>
  onResult (scanHit e).

(** [loop] *)
Definition loop (e : Env) : cmd := fun m =>
  let m1 :=
    if doConnect m
    then
      let (ok, m') := connectToServer e m in
      if ok
      then (Serial_println "We are now connected to the BLE Server." >>
            ble BleWriteNotificationOn >>
            set_connected true >>
            set_doConnect false) m'
      else Serial_println
             "We have failed to connect to the server; Restart your device to scan for nearby BLE server again."
             m'
    else m in
  ((if newHeartRate m1
    then set_newHeartRate false >> printReadings
    else skip) >>
   delay 1000) m1.

Inductive Action : Type :=
| Iterate (e : Env)
| Notify (pData : list byte)
| Disconnect.

Definition step (a : Action) : cmd :=
  match a with
  | Iterate e => loop e
  | Notify pData => heartRateNotifyCallback pData
  | Disconnect => onDisconnect
  end.

Definition run (acts : list Action) (m : Machine) : Machine :=
  fold_left (fun m a => step a m) acts m.

(** The variables of the sketch. *)
Definition globals (m : Machine) :=
  (doConnect m, connected m, heartRateChar m, newHeartRate m).

(** Scans and connection attempts in the output. *)
Definition scans (m : Machine) : nat := count_events is_scan_start (trace m).
Definition attempts (m : Machine) : nat := count_events is_connect (trace m).

(** Connected once, then the link was lost. *)
Definition dropped : Machine :=
  {| doConnect := false; connected := false; heartRateChar := 72;
     newHeartRate := false; now := 60000; trace := [] |}.

(** A sample of 0 bpm, as during loss of skin contact. *)
Definition bpm0 : list byte := [x16; x00].

End Client.

(** ** Basic facts *)

Ltac open_machine m :=
  destruct m as [dc co hr nh ps st os fs fl t n tr ac p].
Ltac open_client m := destruct m as [dc co hr nh n tr].

(** Splitting conjunctions, and equalities that hold by running both
    sides. *)
Ltac conjs := repeat match goal with |- _ /\ _ => split end.
Ltac by_running := vm_compute; reflexivity.
(** The same, leaving the timer arithmetic alone. *)
Ltac by_stepping :=
  cbv -[elapsed_read elapsed_assign]; reflexivity.
(** Counting events after a step, from their count [H] before it. *)
Ltac count_by_running H :=
  unfold count_events in *;
  cbv -[elapsed_read elapsed_assign] in H |- *;
  first [exact H | rewrite H; reflexivity].

Lemma emits_of_trace (c : cmd) (m : Machine) (evs : list IO) :
  trace (c m) = rev evs ++ trace m -> emits c m evs.
Proof.
  intros H. unfold emits, history.
  rewrite H, rev_app_distr, rev_involutive. reflexivity.
Qed.

Lemma state_eqb_eq (a b : state) : state_eqb a b = true <-> a = b.
Proof.
  unfold state_eqb. rewrite Z.eqb_eq.
  split; [|intros ->; reflexivity].
  destruct a, b; simpl; intros H; try reflexivity; discriminate H.
Qed.

Lemma fanSpeeds_eqb_eq (a b : fanSpeeds) : fanSpeeds_eqb a b = true <-> a = b.
Proof.
  unfold fanSpeeds_eqb. rewrite Z.eqb_eq.
  split; [|intros ->; reflexivity].
  destruct a, b; simpl; intros H; try reflexivity; discriminate H.
Qed.

Lemma fanSpeeds_eqb_neq (a b : fanSpeeds) :
  fanSpeeds_eqb a b = false <-> a <> b.
Proof.
  rewrite <- fanSpeeds_eqb_eq. destruct (fanSpeeds_eqb a b); split;
    intros H; try reflexivity; try discriminate; try (intros H'; discriminate).
  exfalso. apply H. reflexivity.
Qed.

Lemma u8_range (b : byte) : 0 <= u8 b < 256.
Proof.
  unfold u8. pose proof (Byte.to_N_bounded b) as H.
  split; [apply N2Z.is_nonneg|]. lia.
Qed.

(** Reading the timer right after it was set to zero gives zero. *)
Lemma elapsed_assign_zero (t : Z) : elapsed_read t (elapsed_assign t 0) = 0.
Proof.
  unfold elapsed_read, elapsed_assign, millis, two32. simpl ms.
  rewrite Z.sub_0_r, Z.mod_mod by lia.
  rewrite Z.sub_diag. reflexivity.
Qed.

(** The timer never shows more than the time that has really passed since
    its reference point [ms], when that point is not in the future. *)
Lemma elapsed_read_le (t base : Z) :
  0 <= base <= t -> base < two32 ->
  elapsed_read t (mkElapsed (base mod two32)) <= t - base.
Proof.
  intros H Hb. unfold elapsed_read, millis, two32 in *. simpl ms.
  rewrite Zminus_mod_idemp_r, Zminus_mod_idemp_l.
  apply Z.mod_le; lia.
Qed.

(** *** What [setFanSpeed] does *)

Lemma setFanSpeed_trace (m : Machine) :
  trace (setFanSpeed m) =
  rev (hold_off ++ short_presses (Z.to_nat (presses_for (fanSpeed m))))
  ++ trace m.
Proof.
  destruct m as [dc co hr nh ps st os fs fl t n tr ac p].
  destruct fs; reflexivity.
Qed.

Lemma setFanSpeed_now (m : Machine) :
  now (setFanSpeed m) = now m + 3000 + 500 * presses_for (fanSpeed m).
Proof.
  destruct m as [dc co hr nh ps st os fs fl t n tr ac p].
  destruct fs; simpl; lia.
Qed.

Lemma setFanSpeed_globals (m : Machine) :
  globals (setFanSpeed m) = globals m /\
  actuations (setFanSpeed m) = actuations m /\ pc (setFanSpeed m) = pc m.
Proof.
  destruct m as [dc co hr nh ps st os fs fl t n tr ac p].
  destruct fs; repeat split.
Qed.

(** ** The fan actuation sequence *)

(** C4. Whatever the machine, [setFanSpeed] outputs the 3000 ms hold on the
    fan line (press, wait 3000 ms, release) and then exactly N short
    presses (wait 250 ms, press, wait 250 ms, release), where N depends
    only on the speed to set: 0 for Off, 3 for Low, 2 for Med, 1 for High.
    It outputs nothing else, takes 3000 + 500 N ms and changes no
    variable of the sketch. *)
Theorem setFanSpeed_sequence (m : Machine) :
  let n := match fanSpeed m with
           | fsOff => 0 | fsLow => 3 | fsMed => 2 | fsHigh => 1 | fsInit => 0
           end%nat in
  emits setFanSpeed m (hold_off ++ short_presses n) /\
  now (setFanSpeed m) = now m + 3000 + 500 * Z.of_nat n /\
  globals (setFanSpeed m) = globals m.
Proof.
  intros n. split; [|split].
  - apply emits_of_trace. rewrite setFanSpeed_trace.
    subst n. destruct (fanSpeed m); reflexivity.
  - rewrite setFanSpeed_now. subst n. destruct (fanSpeed m); reflexivity.
  - apply setFanSpeed_globals.
Qed.

(** ** The sample filter *)

Lemma set_trace_emit (t : list IO) (ev : IO) (m : Machine) :
  set_trace t (emit ev m) = set_trace t m.
Proof. destruct m; reflexivity. Qed.

Lemma globals_emit (ev : IO) (m : Machine) : globals (emit ev m) = globals m.
Proof. destruct m; reflexivity. Qed.

(** Printing the payload only produces output. *)
Lemma print_payload_only_output (pData : list byte) (m : Machine) :
  print_payload pData m = set_trace (trace (print_payload pData m)) m.
Proof.
  revert m. induction pData as [|b rest IH]; intros m.
  - destruct m; reflexivity.
  - simpl. unfold seq, Serial_printNum, Serial_print.
    rewrite IH at 1. rewrite !set_trace_emit. reflexivity.
Qed.

Lemma print_payload_globals (pData : list byte) (m : Machine) :
  globals (print_payload pData m) = globals m.
Proof. rewrite print_payload_only_output. destruct m; reflexivity. Qed.

Lemma callback_short (pData : list byte) (m : Machine) :
  (List.length pData < 2)%nat ->
  heartRateNotifyCallback pData m =
  Serial_print "Characteristic data too short" m.
Proof.
  intros H. unfold heartRateNotifyCallback.
  replace (Z.of_nat (List.length pData) <? 2) with true; [reflexivity|].
  symmetry. apply Z.ltb_lt. lia.
Qed.

Lemma callback_long (b0 b1 : byte) (rest : list byte) (m : Machine) :
  globals (heartRateNotifyCallback (b0 :: b1 :: rest) m) =
  globals (if (0 <? u8 b1) && negb (heartRate m =? u8 b1)
           then set_newHeartRate true (set_heartRate (u8 b1) m)
           else m).
Proof.
  unfold heartRateNotifyCallback.
  replace (Z.of_nat (List.length (b0 :: b1 :: rest)) <? 2) with false.
  2:{ symmetry. apply Z.ltb_ge. simpl List.length. lia. }
  cbv beta zeta. change (nth 1 (b0 :: b1 :: rest) x00) with b1.
  unfold seq, Serial_print.
  set (m1 := (if (0 <? u8 b1) && negb (heartRate m =? u8 b1)
              then fun m0 => set_newHeartRate true (set_heartRate (u8 b1) m0)
              else skip) m).
  transitivity (globals m1).
  - rewrite globals_emit, print_payload_globals, globals_emit. reflexivity.
  - subst m1. destruct ((0 <? u8 b1) && negb (heartRate m =? u8 b1)); reflexivity.
Qed.

Lemma globals_sample (a b : Machine) :
  globals a = globals b ->
  heartRate a = heartRate b /\ newHeartRate a = newHeartRate b.
Proof. unfold globals. intros H. injection H. intros. split; assumption. Qed.

(** C5. The notification callback, for every payload and every machine:
    a payload of fewer than 2 bytes is reported on the serial port and
    changes no variable; with at least 2 bytes, a second byte equal to 0
    or equal to the heart rate currently held changes no variable; any
    other second byte is stored as the heart rate and the pending flag is
    set, nothing else changes.  Right after power-on every non-zero value
    is accepted. *)
Theorem sample_filter (pData : list byte) (m : Machine) :
  let m' := heartRateNotifyCallback pData m in
  ((List.length pData < 2)%nat ->
     globals m' = globals m /\
     emits (heartRateNotifyCallback pData) m
       [EvSerial "Characteristic data too short"]) /\
  (forall b0 b1 rest, pData = b0 :: b1 :: rest ->
     (u8 b1 = 0 -> globals m' = globals m) /\
     (u8 b1 = heartRate m -> globals m' = globals m) /\
     (u8 b1 <> 0 -> u8 b1 <> heartRate m ->
      heartRate m' = u8 b1 /\ newHeartRate m' = true /\
      globals m' = globals (set_newHeartRate true (set_heartRate (u8 b1) m))) /\
     (u8 b1 <> 0 -> (exists d, m = power_on d) ->
      heartRate m' = u8 b1 /\ newHeartRate m' = true)).
Proof.
  intros m'. split.
  - intros Hlen. subst m'. split.
    + rewrite (callback_short _ _ Hlen). apply globals_emit.
    + apply emits_of_trace. rewrite (callback_short _ _ Hlen). reflexivity.
  - intros b0 b1 rest ->. subst m'.
    pose proof (callback_long b0 b1 rest m) as H.
    pose proof (u8_range b1) as Hr.
    assert (Hacc : u8 b1 <> 0 -> u8 b1 <> heartRate m ->
                   globals (heartRateNotifyCallback (b0 :: b1 :: rest) m) =
                   globals (set_newHeartRate true (set_heartRate (u8 b1) m))).
    { intros H0 H1. rewrite H.
      replace (0 <? u8 b1) with true by (symmetry; apply Z.ltb_lt; lia).
      replace (heartRate m =? u8 b1) with false
        by (symmetry; apply Z.eqb_neq; congruence).
      reflexivity. }
    repeat split.
    + intros H0. rewrite H, H0. reflexivity.
    + intros H1. rewrite H, <- H1, Z.eqb_refl, andb_false_r. reflexivity.
    + apply (globals_sample _ _ (Hacc H0 H1)).
    + apply (globals_sample _ _ (Hacc H0 H1)).
    + apply Hacc; assumption.
    + destruct H1 as [d ->]. apply (globals_sample _ _ (Hacc H0 H0)).
    + destruct H1 as [d ->]. apply (globals_sample _ _ (Hacc H0 H0)).
Qed.

Lemma sample_filter_witness :
  globals (heartRateNotifyCallback [x16] stale_sample) = globals stale_sample /\
  globals (heartRateNotifyCallback [x16; x00] stale_sample) =
    globals stale_sample /\
  globals (heartRateNotifyCallback bpm120 stale_sample) =
    globals stale_sample /\
  heartRate (heartRateNotifyCallback bpm135 stale_sample) = 135 /\
  newHeartRate (heartRateNotifyCallback bpm135 (power_on 0)) = true.
Proof.
  split; [|split; [|split; [|split]]].
  - apply (proj1 (sample_filter [x16] stale_sample)). simpl. lia.
  - destruct (proj2 (sample_filter [x16; x00] stale_sample) x16 x00 [] eq_refl)
      as (Hzero & _). exact (Hzero eq_refl).
  - destruct (proj2 (sample_filter bpm120 stale_sample) x16 x78 [] eq_refl)
      as (_ & Hsame & _). exact (Hsame eq_refl).
  - destruct (proj2 (sample_filter bpm135 stale_sample) x16 x87 [] eq_refl)
      as (_ & _ & Hnew & _). apply Hnew; discriminate.
  - destruct (proj2 (sample_filter bpm135 (power_on 0)) x16 x87 [] eq_refl)
      as (_ & _ & _ & Hfirst).
    apply Hfirst; [discriminate | exists 0%N; reflexivity].
Defined.

(** ** The fan-speed decision *)

(** The decision phase, case by case. *)
Lemma loop_decide_cases (m : Machine) :
  loop_decide m =
  if state_eqb (myState m) stConnected
  then if newHeartRate m
       then if 15000 <? ms_since m
            then set_fanSpeed (spec_desiredSpeed (heartRate m))
                   (set_newHeartRate false m)
            else set_newHeartRate false m
       else m
  else set_fanSpeed fsOff m.
Proof.
  unfold loop_decide, seq, ms_since, spec_desiredSpeed.
  destruct (state_eqb (myState m) stConnected); [|reflexivity].
  destruct (newHeartRate m); [|reflexivity].
  destruct m as [dc co hr nh ps st os fs fl t n tr ac p]. cbn.
  destruct (15000 <? elapsed_read n t); [|reflexivity].
  rewrite !Z.gtb_ltb.
  destruct (130 <? hr); [reflexivity|].
  destruct (115 <? hr); [reflexivity|].
  destruct (100 <? hr); reflexivity.
Qed.

Lemma loop_decide_due (m : Machine) :
  myState m = stConnected -> newHeartRate m = true -> 15000 < ms_since m ->
  loop_decide m =
  set_fanSpeed (spec_desiredSpeed (heartRate m)) (set_newHeartRate false m).
Proof.
  intros Hs Hn Ht. rewrite loop_decide_cases, Hs, Hn.
  replace (15000 <? ms_since m) with true by (symmetry; apply Z.ltb_lt; lia).
  reflexivity.
Qed.

Lemma spec_desiredSpeed_bands (v : Z) :
  (130 < v -> spec_desiredSpeed v = fsHigh) /\
  (115 < v <= 130 -> spec_desiredSpeed v = fsMed) /\
  (100 < v <= 115 -> spec_desiredSpeed v = fsLow) /\
  (v <= 100 -> spec_desiredSpeed v = fsOff).
Proof.
  unfold spec_desiredSpeed. rewrite !Z.gtb_ltb.
  destruct (Z.ltb_spec 130 v), (Z.ltb_spec 115 v), (Z.ltb_spec 100 v);
    repeat split; intros; try reflexivity; lia.
Qed.

(** C3. When the decision is taken (connected, a sample pending, more than
    15000 ms on the timer) the speed chosen depends on the heart rate [v]
    alone: High above 130, Med above 115, Low above 100, Off otherwise;
    so 101 gives Low, 116 Med, 131 High and 100 Off, and two machines
    holding the same heart rate choose the same speed. *)
Theorem decision_thresholds (m : Machine) :
  myState m = stConnected -> newHeartRate m = true -> 15000 < ms_since m ->
  let v := heartRate m in
  (130 < v -> fanSpeed (loop_decide m) = fsHigh) /\
  (115 < v <= 130 -> fanSpeed (loop_decide m) = fsMed) /\
  (100 < v <= 115 -> fanSpeed (loop_decide m) = fsLow) /\
  (v <= 100 -> fanSpeed (loop_decide m) = fsOff) /\
  (v = 101 -> fanSpeed (loop_decide m) = fsLow) /\
  (v = 116 -> fanSpeed (loop_decide m) = fsMed) /\
  (v = 131 -> fanSpeed (loop_decide m) = fsHigh) /\
  (v = 100 -> fanSpeed (loop_decide m) = fsOff) /\
  (forall m2, myState m2 = stConnected -> newHeartRate m2 = true ->
              15000 < ms_since m2 -> heartRate m2 = v ->
              fanSpeed (loop_decide m2) = fanSpeed (loop_decide m)).
Proof.
  intros Hs Hn Ht v.
  assert (E : fanSpeed (loop_decide m) = spec_desiredSpeed v).
  { rewrite (loop_decide_due m Hs Hn Ht). destruct m; reflexivity. }
  destruct (spec_desiredSpeed_bands v) as (B1 & B2 & B3 & B4).
  rewrite E. repeat split; intros.
  - apply B1; assumption.
  - apply B2; assumption.
  - apply B3; assumption.
  - apply B4; assumption.
  - apply B3; lia.
  - apply B2; lia.
  - apply B1; lia.
  - apply B4; lia.
  - rewrite (loop_decide_due m2) by assumption.
    destruct m2; simpl in *; subst; reflexivity.
Qed.

Lemma decision_thresholds_witness :
  fanSpeed (loop_decide (due_sample 101)) = fsLow /\
  fanSpeed (loop_decide (due_sample 116)) = fsMed /\
  fanSpeed (loop_decide (due_sample 131)) = fsHigh /\
  fanSpeed (loop_decide (due_sample 100)) = fsOff.
Proof.
  assert (G : forall v, 15000 < ms_since (due_sample v))
    by (intros v; vm_compute; reflexivity).
  split; [|split; [|split]].
  - destruct (decision_thresholds (due_sample 101) eq_refl eq_refl (G 101))
      as (_ & _ & _ & _ & H & _). exact (H eq_refl).
  - destruct (decision_thresholds (due_sample 116) eq_refl eq_refl (G 116))
      as (_ & _ & _ & _ & _ & H & _). exact (H eq_refl).
  - destruct (decision_thresholds (due_sample 131) eq_refl eq_refl (G 131))
      as (_ & _ & _ & _ & _ & _ & H & _). exact (H eq_refl).
  - destruct (decision_thresholds (due_sample 100) eq_refl eq_refl (G 100))
      as (_ & _ & _ & _ & _ & _ & _ & H & _). exact (H eq_refl).
Defined.

(** ** What each phase and each callback leaves alone *)

Lemma fan_vars_eq (a b : Machine) :
  fan_vars a = fan_vars b ->
  fanSpeed a = fanSpeed b /\ fanLastSpeed a = fanLastSpeed b /\
  msSinceFanChange a = msSinceFanChange b /\ actuations a = actuations b.
Proof.
  unfold fan_vars. intros H. injection H. intros. conjs; assumption.
Qed.

Lemma onDisconnect_myState (m : Machine) : myState (onDisconnect m) = stIdle.
Proof. open_machine m. reflexivity. Qed.

Lemma onDisconnect_frame (m : Machine) :
  fan_vars (onDisconnect m) = fan_vars m /\
  heartRate (onDisconnect m) = heartRate m /\
  newHeartRate (onDisconnect m) = newHeartRate m /\
  now (onDisconnect m) = now m /\ pc (onDisconnect m) = pc m.
Proof. open_machine m. conjs; by_running. Qed.

Lemma callback_frame (pData : list byte) (m : Machine) :
  fan_vars (heartRateNotifyCallback pData m) = fan_vars m /\
  myState (heartRateNotifyCallback pData m) = myState m /\
  now (heartRateNotifyCallback pData m) = now m /\
  pc (heartRateNotifyCallback pData m) = pc m.
Proof.
  unfold heartRateNotifyCallback.
  destruct (Z.of_nat (List.length pData) <? 2).
  - open_machine m. conjs; by_running.
  - cbv beta zeta. unfold seq, Serial_print.
    rewrite print_payload_only_output.
    destruct ((0 <? u8 (nth 1 pData x00)) &&
              negb (heartRate m =? u8 (nth 1 pData x00)));
      open_machine m; conjs; by_running.
Qed.

Lemma loop_idle_now (e : Env) (m : Machine) :
  now (loop_idle e m) =
  now m + (if state_eqb (myState m) stIdle then Z.of_N (scanTime e) else 0).
Proof.
  open_machine m. destruct e as [hit st' srv ct].
  destruct st; try (symmetry; apply Z.add_0_r).
  destruct ps, hit; by_running.
Qed.

Lemma loop_idle_frame (e : Env) (m : Machine) :
  fan_vars (loop_idle e m) = fan_vars m /\
  myState (loop_idle e m) = myState m /\
  newHeartRate (loop_idle e m) = newHeartRate m /\
  now m <= now (loop_idle e m) /\ pc (loop_idle e m) = pc m.
Proof.
  split; [|split; [|split; [|split]]].
  5: { open_machine m. destruct e as [hit st' srv ct].
       destruct st; try by_running. destruct ps, hit; by_running. }
  4: { rewrite loop_idle_now.
       destruct (state_eqb (myState m) stIdle); lia. }
  all: open_machine m; destruct e as [hit st' srv ct];
    destruct st; try by_running; destruct ps, hit; by_running.
Qed.

Lemma loop_connect_now (e : Env) (m : Machine) :
  now (loop_connect e m) =
  now m + (if doConnect m then Z.of_N (connectTime e) else 0).
Proof.
  open_machine m. destruct e as [hit st' srv ct].
  destruct dc; [|symmetry; apply Z.add_0_r].
  destruct srv; by_running.
Qed.

Lemma loop_connect_frame (e : Env) (m : Machine) :
  fan_vars (loop_connect e m) = fan_vars m /\
  newHeartRate (loop_connect e m) = newHeartRate m /\
  now m <= now (loop_connect e m) /\ pc (loop_connect e m) = pc m.
Proof.
  split; [|split; [|split]].
  3: { rewrite loop_connect_now. destruct (doConnect m); lia. }
  all: open_machine m; destruct e as [hit st' srv ct];
    destruct dc; try by_running; destruct srv; by_running.
Qed.

Lemma updateDisplay_only_output (m : Machine) :
  updateDisplay m = set_trace (trace (updateDisplay m)) m.
Proof. open_machine m. destruct st, fs; by_running. Qed.

Lemma loop_display_only_output (m : Machine) :
  loop_display m = set_trace (trace (loop_display m)) m.
Proof.
  unfold loop_display.
  destruct (newHeartRate m || negb (state_eqb (myOldState m) (myState m))).
  - apply updateDisplay_only_output.
  - open_machine m. by_running.
Qed.

Lemma loop_display_frame (m : Machine) :
  fan_vars (loop_display m) = fan_vars m /\
  myState (loop_display m) = myState m /\
  heartRate (loop_display m) = heartRate m /\
  newHeartRate (loop_display m) = newHeartRate m /\
  now (loop_display m) = now m /\ pc (loop_display m) = pc m.
Proof.
  rewrite loop_display_only_output. open_machine m. conjs; reflexivity.
Qed.

Lemma loop_decide_frame (m : Machine) :
  myState (loop_decide m) = myState m /\
  fanLastSpeed (loop_decide m) = fanLastSpeed m /\
  msSinceFanChange (loop_decide m) = msSinceFanChange m /\
  actuations (loop_decide m) = actuations m /\
  now (loop_decide m) = now m /\ trace (loop_decide m) = trace m /\
  pc (loop_decide m) = pc m.
Proof.
  rewrite loop_decide_cases.
  destruct (state_eqb (myState m) stConnected), (newHeartRate m),
    (15000 <? ms_since m); open_machine m; conjs; reflexivity.
Qed.

Lemma loop_end_frame (m : Machine) :
  fan_vars (loop_end m) = fan_vars m /\
  myState (loop_end m) = myState m /\
  newHeartRate (loop_end m) = newHeartRate m /\
  now (loop_end m) = now m + 1000 /\ pc (loop_end m) = pc m /\
  emits loop_end m [EvDelay 1000].
Proof.
  open_machine m. conjs; by_running.
Qed.

(** ** Forcing the fan off while not connected *)

(** ** The actuation phase *)

(** Speeds equal: only the report is printed. *)
Lemma loop_actuate_same (m : Machine) :
  fanLastSpeed m = fanSpeed m ->
  loop_actuate m = set_trace (rev (report m) ++ trace m) m.
Proof.
  open_machine m. simpl. intros ->.
  destruct fs; by_stepping.
Qed.

(** Speeds differ: display, [setFanSpeed], timer reset, speed latched. *)
Lemma loop_actuate_change (m : Machine) :
  fanLastSpeed m <> fanSpeed m ->
  let m' := loop_actuate m in
  trace m' =
    rev (report m ++ output_of updateDisplay m ++ hold_off ++
         short_presses (Z.to_nat (presses_for (fanSpeed m))))
    ++ trace m /\
  actuations m' =
    actuations m ++ [mkActuation (now m) (now m') (fanSpeed m)] /\
  now m' = now m + 3000 + 500 * presses_for (fanSpeed m) /\
  msSinceFanChange m' = elapsed_assign (now m') 0 /\
  fanLastSpeed m' = fanSpeed m /\
  (doConnect m', connected m', heartRate m', newHeartRate m', pBLEScan m',
   myState m', myOldState m', fanSpeed m', pc m') =
  (doConnect m, connected m, heartRate m, newHeartRate m, pBLEScan m,
   myState m, myOldState m, fanSpeed m, pc m).
Proof.
  open_machine m. simpl. intros H.
  destruct fl, fs; try (exfalso; apply H; reflexivity);
    destruct st; conjs; try by_stepping; simpl; lia.
Qed.

Lemma loop_actuate_keeps (m : Machine) :
  myState (loop_actuate m) = myState m /\
  fanSpeed (loop_actuate m) = fanSpeed m /\
  newHeartRate (loop_actuate m) = newHeartRate m /\
  pc (loop_actuate m) = pc m.
Proof.
  destruct (fanSpeeds_eqb (fanLastSpeed m) (fanSpeed m)) eqn:E.
  - apply fanSpeeds_eqb_eq in E. rewrite (loop_actuate_same m E).
    open_machine m. conjs; reflexivity.
  - apply fanSpeeds_eqb_neq in E.
    destruct (loop_actuate_change m E) as (_ & _ & _ & _ & _ & H).
    injection H. intros. conjs; assumption.
Qed.

Lemma updateDisplay_fanLine (m : Machine) :
  fanLine (output_of updateDisplay m) = [].
Proof. open_machine m. destruct st, fs; reflexivity. Qed.

(** C9. The actuation phase, for every machine.  If the desired speed
    equals the applied speed, the phase prints its report and nothing
    else: nothing is written to the fan line, no actuation takes place and
    no variable changes, whatever the timer shows.  If they differ, it
    prints the report, updates the display and then drives the fan line
    with exactly the sequence of [setFanSpeed] for the desired speed; one
    actuation is recorded, and afterwards the applied speed is the desired
    speed and the timer reads zero.  Neither the report nor the display
    update writes to the fan line. *)
Theorem actuation_is_change_triggered (m : Machine) :
  let m' := loop_actuate m in
  (fanSpeed m = fanLastSpeed m ->
     emits loop_actuate m (report m) /\
     actuations m' = actuations m /\
     globals m' = globals m /\ now m' = now m) /\
  (fanSpeed m <> fanLastSpeed m ->
     emits loop_actuate m
       (report m ++ output_of updateDisplay m ++ hold_off ++
        short_presses (Z.to_nat (presses_for (fanSpeed m)))) /\
     actuations m' =
       actuations m ++ [mkActuation (now m) (now m') (fanSpeed m)] /\
     fanLastSpeed m' = fanSpeed m /\ fanSpeed m' = fanSpeed m /\
     ms_since m' = 0) /\
  fanLine (report m) = [] /\ fanLine (output_of updateDisplay m) = [].
Proof.
  intros m'. conjs.
  - intros H. subst m'. rewrite (loop_actuate_same m (eq_sym H)). conjs.
    + apply emits_of_trace. rewrite (loop_actuate_same m (eq_sym H)).
      open_machine m. reflexivity.
    + open_machine m. reflexivity.
    + open_machine m. reflexivity.
    + open_machine m. reflexivity.
  - intros H.
    assert (H' : fanLastSpeed m <> fanSpeed m) by congruence.
    destruct (loop_actuate_change m H') as (Hl & Ha & Hn & Ht & Hf & Hg).
    fold m' in Hl, Ha, Hn, Ht, Hf, Hg. conjs.
    + apply emits_of_trace. exact Hl.
    + exact Ha.
    + exact Hf.
    + injection Hg. intros. assumption.
    + unfold ms_since. rewrite Ht. apply elapsed_assign_zero.
  - reflexivity.
  - apply updateDisplay_fanLine.
Qed.

Lemma actuation_is_change_triggered_witness :
  emits loop_actuate stale_sample (report stale_sample) /\
  actuations (loop_actuate (loop_decide lost_link)) =
    actuations lost_link ++ [mkActuation 30000 33000 fsOff].
Proof.
  split.
  - apply (proj1 (actuation_is_change_triggered stale_sample)). reflexivity.
  - apply (proj1 (proj2 (actuation_is_change_triggered (loop_decide lost_link)))).
    discriminate.
Defined.

(** ** Forcing the fan off while not connected *)

(** C6. Whenever the decision phase runs with the connection state other
    than Connected, the desired speed becomes Off, whatever heart rate is
    latched and whether or not a sample is pending; the latched sample is
    left as it is.  For a whole iteration of [loop()]: if it ends in a
    state other than Connected, it ends with the desired speed Off. *)
Theorem not_connected_forces_off (m : Machine) :
  (myState m <> stConnected ->
   fanSpeed (loop_decide m) = fsOff /\
   heartRate (loop_decide m) = heartRate m /\
   newHeartRate (loop_decide m) = newHeartRate m) /\
  (forall e, myState (loop e m) <> stConnected -> fanSpeed (loop e m) = fsOff).
Proof.
  assert (D : forall x, myState x <> stConnected ->
                        fanSpeed (loop_decide x) = fsOff /\
                        heartRate (loop_decide x) = heartRate x /\
                        newHeartRate (loop_decide x) = newHeartRate x).
  { intros x H. rewrite loop_decide_cases.
    destruct (state_eqb (myState x) stConnected) eqn:E.
    - apply state_eqb_eq in E. contradiction.
    - open_machine x. conjs; reflexivity. }
  split; [apply D|].
  intros e. unfold loop, seq.
  set (m3 := loop_display (loop_connect e (loop_idle e m))).
  destruct (loop_end_frame (loop_actuate (loop_decide m3))) as (Hv & Hs & _).
  destruct (loop_actuate_keeps (loop_decide m3)) as (Hs' & Hf' & _).
  destruct (loop_decide_frame m3) as (Hs'' & _).
  rewrite Hs, Hs', Hs''. intros H.
  destruct (fan_vars_eq _ _ Hv) as (-> & _).
  rewrite Hf'. apply (D m3 H).
Qed.

Lemma not_connected_forces_off_witness :
  fanSpeed (loop_decide lost_link) = fsOff /\
  heartRate (loop_decide lost_link) = 150 /\
  newHeartRate (loop_decide lost_link) = true.
Proof.
  apply (proj1 (not_connected_forces_off lost_link)). discriminate.
Defined.

(** ** Where the dwell timer is consulted *)

(** C2, as worded, fails: connected, 135 bpm pending, but only 5000 ms on
    the timer; the decision phase consumes the sample and leaves the
    desired speed Off, where the claim expects High. *)
Lemma early_sample_is_dropped : ~ decision_ignores_dwell early_sample.
Proof.
  unfold decision_ignores_dwell. intros H.
  specialize (H eq_refl eq_refl). vm_compute in H. discriminate H.
Qed.

(** C2, amended.  With the state Connected and a sample pending, the
    decision phase always clears the pending flag, and it consults the
    timer itself: only when the timer reads more than 15000 ms is the
    desired speed recomputed from the heart rate by the thresholds;
    otherwise it is left unchanged.  The actuation phase applies no timer
    check: whenever the desired speed differs from the applied speed it
    actuates. *)
Theorem dwell_gate_sits_in_decision (m : Machine) :
  myState m = stConnected -> newHeartRate m = true ->
  newHeartRate (loop_decide m) = false /\
  (15000 < ms_since m ->
   fanSpeed (loop_decide m) = spec_desiredSpeed (heartRate m)) /\
  (ms_since m <= 15000 -> fanSpeed (loop_decide m) = fanSpeed m) /\
  (forall x : Machine,
     fanSpeed x <> fanLastSpeed x ->
     actuations (loop_actuate x) =
     actuations x ++ [mkActuation (now x) (now (loop_actuate x)) (fanSpeed x)]).
Proof.
  intros Hs Hn. rewrite loop_decide_cases, Hs, Hn.
  change (state_eqb stConnected stConnected) with true. cbv iota.
  conjs.
  - destruct (15000 <? ms_since m); open_machine m; reflexivity.
  - intros H. apply Z.ltb_lt in H. rewrite H. open_machine m. reflexivity.
  - intros H. apply Z.ltb_ge in H. rewrite H. open_machine m. reflexivity.
  - intros x H. apply loop_actuate_change. congruence.
Qed.

Lemma dwell_gate_sits_in_decision_witness :
  newHeartRate (loop_decide early_sample) = false /\
  fanSpeed (loop_decide early_sample) = fanSpeed early_sample /\
  fanSpeed (loop_decide (due_sample 135)) = fsHigh.
Proof.
  destruct (dwell_gate_sits_in_decision early_sample eq_refl eq_refl)
    as (Hflag & _ & Hkeep & _).
  destruct (dwell_gate_sits_in_decision (due_sample 135) eq_refl eq_refl)
    as (_ & Hdue & _).
  split; [exact Hflag|split].
  - apply Hkeep. vm_compute. discriminate.
  - apply Hdue. vm_compute. reflexivity.
Defined.

(** ** Losing the link *)

(** C8, as worded, fails: connected with 120 bpm latched and pending; after
    [onDisconnect] the heart rate is still 120 and the flag still set. *)
Lemma disconnect_leaves_sample : ~ disconnect_clears_sample stale_sample.
Proof.
  unfold disconnect_clears_sample. intros H.
  destruct (H eq_refl) as (_ & Hhr & _). vm_compute in Hhr. discriminate Hhr.
Qed.

(** C8, amended.  [onDisconnect] makes the connection state Idle and the
    [connected] flag false, prints its message, and changes nothing else:
    the latched heart rate and the pending flag keep their values, and so
    does every other variable ([doConnect], [pBLEScan], [myOldState], the
    fan speeds and the timer); no time passes and no actuation is made. *)
Theorem disconnect_goes_idle (m : Machine) :
  myState (onDisconnect m) = stIdle /\
  connected (onDisconnect m) = false /\
  heartRate (onDisconnect m) = heartRate m /\
  newHeartRate (onDisconnect m) = newHeartRate m /\
  fan_vars (onDisconnect m) = fan_vars m /\
  emits onDisconnect m [EvSerial "onDisconnect"; EvSerial crlf] /\
  doConnect (onDisconnect m) = doConnect m /\
  pBLEScan (onDisconnect m) = pBLEScan m /\
  myOldState (onDisconnect m) = myOldState m /\
  now (onDisconnect m) = now m /\
  pc (onDisconnect m) = pc m.
Proof.
  open_machine m. conjs; try by_running.
  apply emits_of_trace. by_running.
Qed.

(** ** From Idle to Scanning *)

(** C7 (the code misses it).  An iteration that starts in Idle clears the
    previous scan results and starts a fresh scan, once each; but the
    connection state is Idle afterwards, not Scanning: the statement
    [myState == stScanning;] compares and assigns nothing.  So unless the
    connection succeeds in the same iteration, the next iteration starts
    in Idle again and scans again. *)
Theorem idle_iteration_rescans (e : Env) (m : Machine) :
  myState m = stIdle ->
  count_events is_clear_results (trace (loop_idle e m)) =
    S (count_events is_clear_results (trace m)) /\
  count_events is_scan_start (trace (loop_idle e m)) =
    S (count_events is_scan_start (trace m)) /\
  myState (loop_idle e m) = stIdle /\
  (doConnect (loop_idle e m) = false -> myState (loop e m) = stIdle).
Proof.
  intros H.
  assert (K : myState (loop_idle e m) = stIdle).
  { destruct (loop_idle_frame e m) as (_ & -> & _). exact H. }
  conjs; try exact K.
  - open_machine m. simpl in H. subst st. destruct e as [hit st' srv ct].
    destruct ps, hit; by_running.
  - open_machine m. simpl in H. subst st. destruct e as [hit st' srv ct].
    destruct ps, hit; by_running.
  - intros Hd. unfold loop, seq.
    set (m1 := loop_idle e m) in *. clearbody m1.
    assert (E : loop_connect e m1 = m1)
      by (unfold loop_connect; rewrite Hd; reflexivity).
    rewrite E. set (m3 := loop_display m1).
    destruct (loop_end_frame (loop_actuate (loop_decide m3))) as (_ & -> & _).
    destruct (loop_actuate_keeps (loop_decide m3)) as (-> & _).
    destruct (loop_decide_frame m3) as (-> & _).
    subst m3. destruct (loop_display_frame m1) as (_ & -> & _). exact K.
Qed.

Lemma idle_iteration_rescans_witness :
  myState (loop_idle env_miss (power_on 0)) = stIdle /\
  myState (loop env_miss (power_on 0)) = stIdle /\
  count_events is_scan_start
    (trace (loop env_miss (loop env_miss (power_on 0)))) = 2%nat.
Proof.
  destruct (idle_iteration_rescans env_miss (power_on 0) eq_refl)
    as (_ & _ & H1 & H2).
  split; [exact H1|split].
  - apply H2. reflexivity.
  - vm_compute. reflexivity.
Defined.

(** ** The dwell between actuations *)

(** C1 (the code misses it).  The schedule [dwell_schedule]: the fan is
    switched off at power-on (5000 to 8000 ms), the strap connects and
    reports 135 bpm, the fan is set to High (25000 to 28500 ms, 17000 ms
    after the previous actuation ended); the link then drops and the next
    iteration switches the fan off at 34500 ms, only 6000 ms after the
    High sequence ended.  The timer is consulted for heart-rate driven
    changes only, not for the change forced by the loss of the link. *)
Theorem disconnect_breaks_dwell :
  actuations (run dwell_schedule (power_on 0)) =
    [mkActuation 5000 8000 fsOff; mkActuation 25000 28500 fsHigh;
     mkActuation 34500 37500 fsOff] /\
  gaps (actuations (run dwell_schedule (power_on 0))) = [17000; 6000] /\
  ~ dwell_respected (actuations (run dwell_schedule (power_on 0))).
Proof.
  assert (A : actuations (run dwell_schedule (power_on 0)) =
              [mkActuation 5000 8000 fsOff; mkActuation 25000 28500 fsHigh;
               mkActuation 34500 37500 fsOff]) by by_running.
  unfold dwell_respected. rewrite A. conjs; try reflexivity.
  simpl gaps. intros H.
  apply Forall_inv_tail in H. apply Forall_inv in H. lia.
Qed.

(** ** The first iteration after power-on *)

Lemma set_pc_keeps (q : Phase) (m : Machine) :
  pc (set_pc q m) = q /\ now (set_pc q m) = now m /\
  fan_vars (set_pc q m) = fan_vars m /\
  newHeartRate (set_pc q m) = newHeartRate m /\
  myState (set_pc q m) = myState m.
Proof. open_machine m. conjs; reflexivity. Qed.

Lemma spec_desiredSpeed_real (v : Z) : spec_desiredSpeed v <> fsInit.
Proof.
  unfold spec_desiredSpeed.
  destruct (v >? 130), (v >? 115), (v >? 100); discriminate.
Qed.

Lemma power_on_first_iteration (d : N) : first_iteration 0 false (power_on d).
Proof.
  unfold first_iteration. simpl Nat.leb. cbv iota.
  conjs; try reflexivity.
  - change (now (power_on d)) with (0 + Z.of_N d). lia.
  - intros H. discriminate H.
Qed.

(** The callbacks keep the first-iteration facts; a notification is
    remembered in [n]. *)
Lemma first_iteration_callback (k : nat) (n : bool) (m : Machine) (a : Action) :
  is_main a = false ->
  first_iteration k n m ->
  first_iteration k (n || is_notify a) (step a m).
Proof.
  intros Ha (Hpc & Hnow & H).
  assert (F : fan_vars (step a m) = fan_vars m /\ now (step a m) = now m /\
              pc (step a m) = pc m /\
              (newHeartRate (step a m) = true ->
               newHeartRate m = true \/ is_notify a = true)).
  { destruct a as [e|pData|]; [discriminate Ha| |].
    - destruct (callback_frame pData m) as (Hv & _ & Hn & Hp).
      conjs; try assumption. intros _. right. reflexivity.
    - destruct (onDisconnect_frame m) as (Hv & _ & Hh & Hn & Hp).
      conjs; try assumption. simpl step. rewrite Hh. intros E. left. exact E. }
  destruct F as (Hv & Hn & Hp & Hh).
  destruct (fan_vars_eq _ _ Hv) as (Hfs & Hfl & Hms & Hac).
  unfold first_iteration. rewrite Hp, Hn, Hfs, Hfl, Hms, Hac.
  conjs; try assumption.
  destruct (k <=? 4)%nat.
  - destruct H as (H1 & H2 & H3 & H4). conjs; try assumption.
    destruct (k <=? 3)%nat.
    + destruct H4 as (H4 & H5). split; [exact H4|].
      intros E. destruct (Hh E) as [E'|E'].
      * rewrite (H5 E'). reflexivity.
      * rewrite E'. apply orb_true_r.
    + destruct H4 as [H4|(H4 & H5)]; [left; exact H4|right].
      rewrite H4. split; [reflexivity|exact H5].
  - destruct H as (x & Hx & Hl & Ht & Hc). exists x.
    unfold first_actuation. conjs; try assumption.
    destruct Hc as [Hc|(Hc & Hc')]; [left; exact Hc|right].
    rewrite Hc. split; [reflexivity|exact Hc'].
Qed.

Lemma loop_decide_fanSpeed (m : Machine) :
  fanSpeed (loop_decide m) = fsOff \/
  fanSpeed (loop_decide m) = fanSpeed m \/
  (newHeartRate m = true /\ 15000 < ms_since m /\
   fanSpeed (loop_decide m) = spec_desiredSpeed (heartRate m)).
Proof.
  rewrite loop_decide_cases.
  destruct (state_eqb (myState m) stConnected);
    [|left; open_machine m; reflexivity].
  destruct (newHeartRate m) eqn:En; [|right; left; reflexivity].
  destruct (15000 <? ms_since m) eqn:Et.
  - right; right. apply Z.ltb_lt in Et.
    conjs; try assumption; try reflexivity; open_machine m; reflexivity.
  - right; left. open_machine m. reflexivity.
Qed.

(** The decision switches the fan on, or to another running speed, only
    when the timer reads more than 15000 ms. *)
Lemma speed_up_waits_for_dwell (m : Machine) :
  fanSpeed (loop_decide m) <> fanSpeed m ->
  fanSpeed (loop_decide m) <> fsOff ->
  15000 < ms_since m.
Proof.
  intros Hc Hoff.
  destruct (loop_decide_fanSpeed m) as [D|[D|(_ & Dt & _)]];
    [contradiction|contradiction|exact Dt].
Qed.

Lemma presses_for_nonneg (f : fanSpeeds) : 0 <= presses_for f.
Proof. destruct f; simpl; lia. Qed.

(** One phase of [loop()] takes the first iteration one step further. *)
Lemma first_iteration_main (k : nat) (n : bool) (m : Machine) (e : Env) :
  (k < 6)%nat ->
  first_iteration k n m ->
  first_iteration (S k) n (step (Main e) m).
Proof.
  intros Hk (Hpc & Hnow & H).
  unfold step, run_phase. rewrite Hpc.
  destruct k as [|[|[|[|[|[|k]]]]]]; [| | | | | | lia]; clear Hk;
    simpl phase_at; cbv iota; simpl next_phase; simpl Nat.leb in H;
    cbv iota in H;
    match goal with
    | |- first_iteration _ _ (set_pc ?q ?x) =>
        destruct (set_pc_keeps q x) as (P1 & P2 & P3 & P4 & _);
        destruct (fan_vars_eq _ _ P3) as (Q1 & Q2 & Q3 & Q4);
        unfold first_iteration; rewrite P1, P2, ?P4, Q1, Q2, Q3, Q4;
        clear P1 P2 P3 P4 Q1 Q2 Q3 Q4
    end; simpl Nat.leb; cbv iota; simpl phase_at.
  - (* the idle phase *)
    destruct H as (H1 & H2 & H3 & H4 & H5).
    destruct (loop_idle_frame e m) as (Fv & _ & Fn & Ft & _).
    destruct (fan_vars_eq _ _ Fv) as (-> & -> & -> & ->). rewrite Fn.
    conjs; try assumption; try reflexivity. lia.
  - (* the connection phase *)
    destruct H as (H1 & H2 & H3 & H4 & H5).
    destruct (loop_connect_frame e m) as (Fv & Fn & Ft & _).
    destruct (fan_vars_eq _ _ Fv) as (-> & -> & -> & ->). rewrite Fn.
    conjs; try assumption; try reflexivity. lia.
  - (* the display phase *)
    destruct H as (H1 & H2 & H3 & H4 & H5).
    destruct (loop_display_frame m) as (Fv & _ & _ & Fn & Ft & _).
    destruct (fan_vars_eq _ _ Fv) as (-> & -> & -> & ->). rewrite Fn, Ft.
    conjs; try assumption; reflexivity.
  - (* the decision phase *)
    destruct H as (H1 & H2 & H3 & H4 & H5).
    destruct (loop_decide_frame m) as (_ & -> & -> & -> & -> & _).
    conjs; try assumption; try reflexivity.
    destruct (loop_decide_fanSpeed m) as [D|[D|(Dn & Dt & D)]].
    + left. exact D.
    + left. rewrite D. exact H4.
    + right. conjs.
      * apply H5. exact Dn.
      * unfold ms_since in Dt. rewrite H3 in Dt.
        pose proof (elapsed_read_le (now m) 0) as L.
        change (0 mod two32) with 0 in L.
        assert (0 < two32) by reflexivity. lia.
      * rewrite D. apply spec_desiredSpeed_real.
  - (* the actuation phase *)
    destruct H as (H1 & H2 & H3 & H4).
    assert (Hne : fanLastSpeed m <> fanSpeed m).
    { rewrite H1. destruct H4 as [E|(_ & _ & E)].
      - rewrite E. discriminate.
      - congruence. }
    destruct (loop_actuate_change m Hne) as (_ & Fa & Ft & _).
    pose proof (presses_for_nonneg (fanSpeed m)) as Hp.
    split; [reflexivity|]. split; [lia|].
    exists (mkActuation (now m) (now (loop_actuate m)) (fanSpeed m)).
    split; [rewrite Fa, H2; reflexivity|].
    unfold first_actuation. simpl a_start. simpl a_end. simpl a_target.
    conjs.
    + exact Ft.
    + congruence.
    + destruct H4 as [E|(En & Et & _)]; [left; exact E|right].
      split; assumption.
  - (* the end of the iteration *)
    destruct (loop_end_frame m) as (Fv & _ & _ & Ft & _).
    destruct (fan_vars_eq _ _ Fv) as (_ & _ & _ & ->). rewrite Ft.
    conjs; try reflexivity; try assumption. lia.
Qed.

Lemma first_iteration_run (acts : list Action) :
  forall (k : nat) (n : bool) (m : Machine),
    first_iteration k n m ->
    (k + mains acts <= 6)%nat ->
    first_iteration (k + mains acts) (n || has_notify acts) (run acts m).
Proof.
  induction acts as [|a rest IH]; intros k n m Hm Hk.
  - simpl. unfold mains. simpl. rewrite Nat.add_0_r, orb_false_r. exact Hm.
  - unfold mains in *. simpl filter in *. simpl run. simpl has_notify.
    destruct (is_main a) eqn:Ea.
    + simpl List.length in *. destruct a as [e| |]; try discriminate Ea.
      simpl is_notify. simpl orb. rewrite Nat.add_succ_r.
      change (S (k + List.length (filter is_main rest)))
        with (S k + List.length (filter is_main rest))%nat.
      apply IH; [|lia]. apply first_iteration_main; [lia|exact Hm].
    + rewrite orb_assoc. apply IH; [|exact Hk].
      apply first_iteration_callback; assumption.
Qed.

(** C10, as worded, fails: in [late_connect_schedule] the strap is found
    and connected within the first iteration, 16 s after power-on, and
    135 bpm is delivered before the decision is taken; the one actuation of
    that iteration has target High. *)
Lemma first_actuation_can_be_high :
  ~ first_iteration_drives_off 0 late_connect_schedule.
Proof.
  unfold first_iteration_drives_off. intros H.
  destruct (H eq_refl) as (a & Ha & Ht).
  vm_compute in Ha. injection Ha as <-. discriminate Ht.
Qed.

(** C10, amended.  However the callbacks interleave with the first
    iteration of [loop()] after power-on, that iteration performs exactly
    one actuation: the applied speed starts as [fsInit], which the desired
    speed never is.  The sequence lasts 3000 ms plus 500 ms per short
    press of its target, and its target is Off unless a notification was
    delivered during the iteration and the actuation started later than
    15000 ms after power-on. *)
Theorem first_iteration_actuates_once (d : N) (acts : list Action) :
  mains acts = 6%nat ->
  exists a,
    actuations (run acts (power_on d)) = [a] /\
    a_end a = a_start a + 3000 + 500 * presses_for (a_target a) /\
    a_target a <> fsInit /\
    (a_target a = fsOff \/ (has_notify acts = true /\ 15000 < a_start a)).
Proof.
  intros H.
  pose proof (first_iteration_run acts 0 false (power_on d)
                (power_on_first_iteration d)) as R.
  rewrite H in R. specialize (R (Nat.le_refl 6)).
  destruct R as (_ & _ & a & Ha & Hf). exists a. split; assumption.
Qed.

Lemma first_iteration_actuates_once_witness :
  exists a,
    actuations (run (tick env_hit) (power_on 0)) = [a] /\
    a_end a = a_start a + 3000 + 500 * presses_for (a_target a) /\
    a_target a <> fsInit /\
    (a_target a = fsOff \/
     (has_notify (tick env_hit) = true /\ 15000 < a_start a)).
Proof.
  apply (first_iteration_actuates_once 0 (tick env_hit)). reflexivity.
Defined.

(** ** The phases put together *)

Lemma loop_connect_myState (e : Env) (m : Machine) :
  myState (loop_connect e m) = myState m \/
  myState (loop_connect e m) = stConnected.
Proof.
  open_machine m. destruct e as [hit st' srv ct].
  destruct dc; [|left; reflexivity].
  destruct srv; first [left; by_running | right; by_running].
Qed.

(** Every step leaves the connection state alone or makes it Idle or
    Connected. *)
Lemma step_myState (a : Action) (m : Machine) :
  myState (step a m) = myState m \/ myState (step a m) = stIdle \/
  myState (step a m) = stConnected.
Proof.
  destruct a as [e|pData|].
  - unfold step, run_phase.
    match goal with
    | |- context [set_pc ?q ?x] =>
        destruct (set_pc_keeps q x) as (_ & _ & _ & _ & ->)
    end.
    destruct (pc m).
    + left. apply loop_idle_frame.
    + destruct (loop_connect_myState e m) as [H|H]; rewrite H; auto.
    + left. apply loop_display_frame.
    + left. apply loop_decide_frame.
    + left. apply loop_actuate_keeps.
    + left. apply loop_end_frame.
  - left. apply callback_frame.
  - right; left. apply onDisconnect_myState.
Qed.

(** The state Scanning is never entered. *)
Lemma never_scanning (acts : list Action) (d : N) :
  myState (run acts (power_on d)) <> stScanning.
Proof.
  assert (G : forall m, myState m <> stScanning ->
                        myState (run acts m) <> stScanning).
  { induction acts as [|a rest IH]; intros m H; [exact H|].
    simpl run. apply IH.
    destruct (step_myState a m) as [E|[E|E]]; rewrite E;
      [exact H|discriminate|discriminate]. }
  apply G. discriminate.
Qed.

(** No phase looks at the position in [loop()]. *)
Lemma phases_ignore_pc (e : Env) (q : Phase) (m : Machine) :
  loop_idle e (set_pc q m) = set_pc q (loop_idle e m) /\
  loop_connect e (set_pc q m) = set_pc q (loop_connect e m) /\
  loop_display (set_pc q m) = set_pc q (loop_display m) /\
  loop_decide (set_pc q m) = set_pc q (loop_decide m) /\
  loop_actuate (set_pc q m) = set_pc q (loop_actuate m) /\
  loop_end (set_pc q m) = set_pc q (loop_end m).
Proof.
  destruct m as [dc co hr nh ps st os fs fl t n tr ac p0].
  destruct e as [hit st' srv ct]. conjs.
  - destruct st; try by_running; destruct ps, hit; by_running.
  - destruct dc; try by_running; destruct srv; by_running.
  - destruct nh, os, st, fs; by_running.
  - rewrite !loop_decide_cases. unfold ms_since. simpl.
    destruct (state_eqb st stConnected), nh, (15000 <? elapsed_read n t);
      reflexivity.
  - destruct fl, fs, st; by_stepping.
  - by_running.
Qed.

Lemma set_pc_twice (q1 q2 : Phase) (m : Machine) :
  set_pc q2 (set_pc q1 m) = set_pc q2 m.
Proof. open_machine m. reflexivity. Qed.

Lemma set_pc_same (m : Machine) : set_pc (pc m) m = m.
Proof. open_machine m. reflexivity. Qed.

Lemma loop_keeps_pc (e : Env) (m : Machine) : pc (loop e m) = pc m.
Proof.
  unfold loop, seq.
  destruct (loop_end_frame
              (loop_actuate (loop_decide (loop_display
                 (loop_connect e (loop_idle e m))))))
    as (_ & _ & _ & _ & -> & _).
  destruct (loop_actuate_keeps
              (loop_decide (loop_display (loop_connect e (loop_idle e m)))))
    as (_ & _ & _ & ->).
  destruct (loop_decide_frame
              (loop_display (loop_connect e (loop_idle e m))))
    as (_ & _ & _ & _ & _ & _ & ->).
  destruct (loop_display_frame (loop_connect e (loop_idle e m)))
    as (_ & _ & _ & _ & _ & ->).
  destruct (loop_connect_frame e (loop_idle e m)) as (_ & _ & _ & ->).
  apply loop_idle_frame.
Qed.

(** Six phases in a row, started at the top of [loop()] and not interleaved
    with any callback, are one iteration of [loop()]. *)
Lemma run_tick (e : Env) (m : Machine) :
  pc m = P_idle -> run (tick e) m = loop e m.
Proof.
  intros H. unfold tick, run. simpl. unfold run_phase. rewrite H. cbv iota.
  simpl next_phase.
  repeat match goal with
  | |- context [pc (set_pc ?q ?x)] =>
      replace (pc (set_pc q x)) with q by (symmetry; apply set_pc_keeps);
      cbv iota; simpl next_phase
  end.
  destruct (phases_ignore_pc e P_connect (loop_idle e m)) as (_ & -> & _).
  rewrite set_pc_twice.
  destruct (phases_ignore_pc e P_display (loop_connect e (loop_idle e m)))
    as (_ & _ & -> & _).
  rewrite set_pc_twice.
  destruct (phases_ignore_pc e P_decide
              (loop_display (loop_connect e (loop_idle e m))))
    as (_ & _ & _ & -> & _).
  rewrite set_pc_twice.
  destruct (phases_ignore_pc e P_actuate
              (loop_decide (loop_display (loop_connect e (loop_idle e m)))))
    as (_ & _ & _ & _ & -> & _).
  rewrite set_pc_twice.
  destruct (phases_ignore_pc e P_end
              (loop_actuate (loop_decide (loop_display
                 (loop_connect e (loop_idle e m))))))
    as (_ & _ & _ & _ & _ & ->).
  rewrite set_pc_twice.
  change (loop_end (loop_actuate (loop_decide (loop_display
            (loop_connect e (loop_idle e m))))))
    with (loop e m).
  rewrite <- H, <- (loop_keeps_pc e m). apply set_pc_same.
Qed.

(** * Further properties of the sketch *)

(** ** What each step does to the variables *)

Lemma globals_fields (a b : Machine) :
  globals a = globals b ->
  doConnect a = doConnect b /\ connected a = connected b /\
  heartRate a = heartRate b /\ newHeartRate a = newHeartRate b /\
  pBLEScan a = pBLEScan b /\ myState a = myState b /\
  myOldState a = myOldState b /\ fanSpeed a = fanSpeed b /\
  fanLastSpeed a = fanLastSpeed b /\
  msSinceFanChange a = msSinceFanChange b.
Proof. unfold globals. intros H. injection H. intros. conjs; assumption. Qed.

Lemma globals_set_pc (q : Phase) (m : Machine) :
  globals (set_pc q m) = globals m.
Proof. open_machine m. reflexivity. Qed.

Lemma onDisconnect_globals (m : Machine) :
  globals (onDisconnect m) =
  globals (set_myState stIdle (set_connected false m)).
Proof. open_machine m. by_running. Qed.

Lemma callback_globals (pData : list byte) (m : Machine) :
  globals (heartRateNotifyCallback pData m) = globals m \/
  exists b, 0 < u8 b < 256 /\
            globals (heartRateNotifyCallback pData m) =
            globals (set_newHeartRate true (set_heartRate (u8 b) m)).
Proof.
  destruct pData as [|b0 [|b1 rest]].
  - left. rewrite callback_short by (simpl; lia). apply globals_emit.
  - left. rewrite callback_short by (simpl; lia). apply globals_emit.
  - rewrite callback_long.
    destruct (0 <? u8 b1) eqn:E; [|left; reflexivity].
    destruct (heartRate m =? u8 b1); [left; reflexivity|].
    right. exists b1. apply Z.ltb_lt in E. pose proof (u8_range b1).
    split; [lia|reflexivity].
Qed.

Lemma loop_idle_globals (e : Env) (m : Machine) :
  globals (loop_idle e m) =
  globals (if state_eqb (myState m) stIdle
           then set_pBLEScan true (set_doConnect (scanHit e || doConnect m) m)
           else m).
Proof.
  open_machine m. destruct e as [hit st' srv ct].
  destruct st; try by_running; destruct ps, hit, dc; by_running.
Qed.

Lemma loop_connect_globals (e : Env) (m : Machine) :
  globals (loop_connect e m) =
  globals (if doConnect m
           then match server e with
                | Ready => set_doConnect false
                             (set_myState stConnected (set_connected true m))
                | _ => m
                end
           else m).
Proof.
  open_machine m. destruct e as [hit st' srv ct].
  destruct dc; try by_running; destruct srv; by_running.
Qed.

Lemma loop_display_globals (m : Machine) :
  globals (loop_display m) = globals m.
Proof. rewrite loop_display_only_output. open_machine m. reflexivity. Qed.

Lemma loop_actuate_globals (m : Machine) :
  globals (loop_actuate m) =
  globals (if fanSpeeds_eqb (fanLastSpeed m) (fanSpeed m)
           then m
           else set_fanLastSpeed (fanSpeed m)
                  (set_msSinceFanChange
                     (elapsed_assign (now (loop_actuate m)) 0) m)).
Proof.
  destruct (fanSpeeds_eqb (fanLastSpeed m) (fanSpeed m)) eqn:E.
  - apply fanSpeeds_eqb_eq in E. rewrite (loop_actuate_same m E).
    open_machine m. reflexivity.
  - apply fanSpeeds_eqb_neq in E.
    destruct (loop_actuate_change m E) as (_ & _ & _ & Ht & Hf & Hg).
    injection Hg. intros _ H8 H7 H6 H5 H4 H3 H2 H1.
    unfold globals. rewrite H1, H2, H3, H4, H5, H6, H7, H8, Hf, Ht.
    open_machine m. reflexivity.
Qed.

Lemma loop_end_globals (m : Machine) :
  globals (loop_end m) = globals (set_myOldState (myState m) m).
Proof. open_machine m. by_running. Qed.

(** A property of the variables alone that every phase and every callback
    keeps holds in every reachable machine. *)
Lemma run_keeps (P : Machine -> Prop) :
  (forall a m, P m -> P (step a m)) ->
  forall acts m, P m -> P (run acts m).
Proof.
  intros Hstep acts. induction acts as [|a rest IH]; intros m H.
  - exact H.
  - simpl. apply IH. apply Hstep. exact H.
Qed.

Lemma reachable_keeps (P : Machine -> Prop) :
  (forall d, P (power_on d)) ->
  (forall a m, P m -> P (step a m)) ->
  forall m, reachable m -> P m.
Proof.
  intros H0 Hs m (d & acts & ->). apply run_keeps; [exact Hs|apply H0].
Qed.

Lemma reachable_step (a : Action) (m : Machine) :
  reachable m -> reachable (step a m).
Proof.
  intros (d & acts & ->). exists d, (acts ++ [a]).
  unfold run. rewrite fold_left_app. reflexivity.
Qed.

(** ** The connection state *)



(** ** The latched sample *)

Lemma sample_consistent_ext (a b : Machine) :
  globals a = globals b -> sample_consistent b -> sample_consistent a.
Proof.
  intros H. apply globals_fields in H.
  destruct H as (_ & _ & H3 & H4 & _).
  unfold sample_consistent. rewrite H3, H4. tauto.
Qed.

Lemma sample_consistent_step (a : Action) (m : Machine) :
  sample_consistent m -> sample_consistent (step a m).
Proof.
  intros H. destruct a as [e|pData|].
  - unfold step, run_phase.
    apply (sample_consistent_ext _ _ (globals_set_pc _ _)).
    destruct (pc m).
    + apply (sample_consistent_ext _ _ (loop_idle_globals e m)).
      destruct (state_eqb (myState m) stIdle); [|exact H].
      open_machine m. exact H.
    + apply (sample_consistent_ext _ _ (loop_connect_globals e m)).
      destruct (doConnect m); [|exact H].
      destruct (server e); exact H.
    + apply (sample_consistent_ext _ _ (loop_display_globals m)). exact H.
    + rewrite loop_decide_cases.
      destruct (state_eqb (myState m) stConnected), (newHeartRate m),
        (15000 <? ms_since m); try exact H;
        open_machine m; unfold sample_consistent in *; simpl in *;
        (split; [tauto|intros; try discriminate; tauto]).
    + apply (sample_consistent_ext _ _ (loop_actuate_globals m)).
      destruct (fanSpeeds_eqb (fanLastSpeed m) (fanSpeed m)); [exact H|].
      open_machine m. exact H.
    + apply (sample_consistent_ext _ _ (loop_end_globals m)).
      open_machine m. exact H.
  - simpl step. destruct (callback_globals pData m) as [E|(b & Hb & E)];
      apply (sample_consistent_ext _ _ E); [exact H|].
    open_machine m. unfold sample_consistent. simpl. split; [lia|intros; lia].
  - simpl step. apply (sample_consistent_ext _ _ (onDisconnect_globals m)).
    open_machine m. exact H.
Qed.

(** In every reachable machine the latched heart rate is between 0 and
    255, and whenever a sample is pending it is not 0: the decision never
    sees a pending zero reading. *)
Theorem pending_sample_is_nonzero (m : Machine) :
  reachable m ->
  0 <= heartRate m < 256 /\ (newHeartRate m = true -> heartRate m <> 0).
Proof.
  apply (reachable_keeps sample_consistent).
  - intros d. unfold sample_consistent. simpl. split; [lia|].
    intros; discriminate.
  - apply sample_consistent_step.
Qed.

Lemma pending_sample_is_nonzero_witness :
  0 <= heartRate (run dwell_schedule (power_on 0)) < 256 /\
  (newHeartRate (run dwell_schedule (power_on 0)) = true ->
   heartRate (run dwell_schedule (power_on 0)) <> 0).
Proof.
  apply (pending_sample_is_nonzero (run dwell_schedule (power_on 0))).
  exists 0%N, dwell_schedule. reflexivity.
Defined.

(** Delivering the same notification twice in a row leaves the variables
    as after delivering it once: the second copy is rejected as a
    duplicate (or for the reason the first one was). *)
Theorem duplicate_notification_is_ignored (pData : list byte) (m : Machine) :
  globals (heartRateNotifyCallback pData (heartRateNotifyCallback pData m)) =
  globals (heartRateNotifyCallback pData m).
Proof.
  destruct pData as [|b0 [|b1 rest]].
  - rewrite !(callback_short []) by (simpl; lia). unfold Serial_print.
    rewrite !globals_emit. reflexivity.
  - rewrite !(callback_short [b0]) by (simpl; lia). unfold Serial_print.
    rewrite !globals_emit. reflexivity.
  - rewrite (callback_long b0 b1 rest (heartRateNotifyCallback _ m)).
    set (m1 := heartRateNotifyCallback (b0 :: b1 :: rest) m).
    assert (K : (0 <? u8 b1) && negb (heartRate m1 =? u8 b1) = false).
    { destruct (0 <? u8 b1) eqn:E0; [|reflexivity].
      pose proof (callback_long b0 b1 rest m) as L. fold m1 in L.
      apply globals_fields in L. destruct L as (_ & _ & L & _).
      rewrite L, E0. simpl andb.
      destruct (heartRate m =? u8 b1) eqn:E1.
      - simpl. rewrite E1. reflexivity.
      - simpl. open_machine m. simpl. rewrite Z.eqb_refl. reflexivity. }
    rewrite K. reflexivity.
Qed.

(** The most recent sample wins: after a notification of at least 2 bytes
    whose second byte is not 0, the latched heart rate is that byte,
    whatever was latched before; and the callback never clears a pending
    flag. *)
Theorem latest_sample_wins (b0 b1 : byte) (rest : list byte) (m : Machine) :
  u8 b1 <> 0 ->
  heartRate (heartRateNotifyCallback (b0 :: b1 :: rest) m) = u8 b1 /\
  (newHeartRate m = true ->
   newHeartRate (heartRateNotifyCallback (b0 :: b1 :: rest) m) = true) /\
  (heartRate m <> u8 b1 ->
   newHeartRate (heartRateNotifyCallback (b0 :: b1 :: rest) m) = true).
Proof.
  intros Hnz. pose proof (u8_range b1) as Hr.
  pose proof (callback_long b0 b1 rest m) as L.
  replace (0 <? u8 b1) with true in L by (symmetry; apply Z.ltb_lt; lia).
  simpl andb in L. apply globals_fields in L.
  destruct L as (_ & _ & Lh & Ln & _). rewrite Lh, Ln.
  destruct (Z.eqb_spec (heartRate m) (u8 b1)) as [E|E]; simpl negb; cbv iota.
  - conjs; [exact E|tauto|intros C; contradiction].
  - open_machine m. simpl. conjs; intros; reflexivity.
Qed.

Lemma latest_sample_wins_witness :
  heartRate (heartRateNotifyCallback bpm135
               (heartRateNotifyCallback bpm120 (power_on 0))) = 135.
Proof.
  apply (latest_sample_wins x16 x87 []
           (heartRateNotifyCallback bpm120 (power_on 0))).
  discriminate.
Defined.

(** ** The fan bookkeeping *)

(** The timer never shows more than the time that really passed since the
    moment [base] it was set to zero. *)
Lemma elapsed_read_real (t base : Z) :
  base <= t -> elapsed_read t (mkElapsed (base mod two32)) <= t - base.
Proof.
  intros H. unfold elapsed_read, millis, two32. simpl ms.
  rewrite Zminus_mod_idemp_r, Zminus_mod_idemp_l.
  apply Z.mod_le; lia.
Qed.

Lemma elapsed_assign_now (t : Z) : elapsed_assign t 0 = mkElapsed (t mod two32).
Proof.
  unfold elapsed_assign, millis, two32. rewrite Z.sub_0_r, Z.mod_mod by lia.
  reflexivity.
Qed.

Lemma last_end_snoc (e0 : Z) (l : list Actuation) (a : Actuation) :
  last_end e0 (l ++ [a]) = a_end a.
Proof. unfold last_end. rewrite fold_left_app. reflexivity. Qed.

Lemma last_target_snoc (t0 : fanSpeeds) (l : list Actuation) (a : Actuation) :
  last_target t0 (l ++ [a]) = a_target a.
Proof. unfold last_target. rewrite fold_left_app. reflexivity. Qed.

Lemma timeline_snoc (l : list Actuation) :
  forall (e0 : Z) (t0 : fanSpeeds) (a : Actuation),
    timeline e0 t0 l ->
    follows (last_end e0 l) (last_target t0 l) a ->
    timeline e0 t0 (l ++ [a]).
Proof.
  induction l as [|b rest IH]; intros e0 t0 a Hl Ha.
  - simpl. split; [exact Ha|exact I].
  - simpl in *. destruct Hl as (Hb & Hrest). split; [exact Hb|].
    apply IH; assumption.
Qed.

(** Two neighbours in a timeline. *)
Lemma timeline_neighbours (l1 : list Actuation) :
  forall (e0 : Z) (t0 : fanSpeeds) (a b : Actuation) (l2 : list Actuation),
    timeline e0 t0 (l1 ++ a :: b :: l2) ->
    follows (a_end a) (a_target a) b.
Proof.
  induction l1 as [|c rest IH]; intros e0 t0 a b l2 H.
  - simpl in H. tauto.
  - simpl in H. destruct H as (_ & H). apply (IH _ _ _ _ _ H).
Qed.

Lemma timeline_member (l1 : list Actuation) :
  forall (e0 : Z) (t0 : fanSpeeds) (a : Actuation) (l2 : list Actuation),
    timeline e0 t0 (l1 ++ a :: l2) ->
    exists e t, e0 <= e /\ follows e t a.
Proof.
  induction l1 as [|c rest IH]; intros e0 t0 a l2 H.
  - simpl in H. exists e0, t0. split; [lia|tauto].
  - simpl in H. destruct H as (Hc & H).
    destruct (IH _ _ _ _ H) as (e & t & He & Hf).
    exists e, t. split; [|exact Hf].
    destruct Hc as (Hc1 & Hc2 & _).
    pose proof (presses_for_nonneg (a_target c)). lia.
Qed.

(** Steps that leave the fan variables alone keep the bookkeeping, as long
    as time does not run backwards and the step does not enter or sit in
    the actuation phase with the clock moved. *)
Lemma fan_consistent_same (m m' : Machine) :
  fan_vars m' = fan_vars m -> now m <= now m' ->
  (pc m <> P_actuate /\ pc m' <> P_actuate) \/
  (pc m' = pc m /\ now m' = now m) ->
  fan_consistent m -> fan_consistent m'.
Proof.
  intros Hv Hn Hp (H1 & H2 & H3 & H4 & H5 & H6 & H7).
  destruct (fan_vars_eq _ _ Hv) as (Q1 & Q2 & Q3 & Q4).
  unfold fan_consistent. rewrite Q1, Q2, Q3, Q4. conjs; try assumption.
  - lia.
  - lia.
  - destruct H6 as [H6|[H6|(H6 & H6')]]; [left; exact H6|right; left; exact H6|].
    destruct Hp as [(Hp & _)|(Hp & Hp')]; [contradiction|].
    right; right. rewrite Hp, Hp'. split; assumption.
  - intros Hd Hq. apply H7; [exact Hd|].
    destruct Hp as [(Hp & _)|(Hp & _)]; [exact Hp|].
    rewrite <- Hp. exact Hq.
Qed.

Lemma fan_consistent_decide (m : Machine) :
  pc m = P_decide ->
  fan_consistent m -> fan_consistent (set_pc P_actuate (loop_decide m)).
Proof.
  intros Hpc (H1 & H2 & H3 & H4 & H5 & H6 & H7).
  destruct (set_pc_keeps P_actuate (loop_decide m)) as (P1 & P2 & P3 & _).
  destruct (fan_vars_eq _ _ P3) as (Q1 & Q2 & Q3 & Q4).
  destruct (loop_decide_frame m) as (_ & F2 & F3 & F4 & F5 & _).
  unfold fan_consistent. rewrite P1, P2, Q1, Q2, Q3, Q4, F2, F3, F4, F5.
  assert (Hnot : pc m <> P_actuate) by (rewrite Hpc; discriminate).
  conjs; try assumption; try lia.
  - destruct (loop_decide_fanSpeed m) as [D|[D|(_ & _ & D)]]; rewrite D.
    + discriminate.
    + exact H3.
    + apply spec_desiredSpeed_real.
  - destruct (loop_decide_fanSpeed m) as [D|[D|(_ & Dt & _)]].
    + right; left. exact D.
    + rewrite D.
      destruct H6 as [H6|[H6|(H6 & _)]];
        [left; exact H6|right; left; exact H6|contradiction].
    + right; right. split; [reflexivity|].
      unfold ms_since in Dt. rewrite H2 in Dt.
      pose proof (elapsed_read_real (now m) (last_end 0 (actuations m))).
      lia.
  - intros _ C. exfalso. apply C. reflexivity.
Qed.

Lemma fan_consistent_actuate (m : Machine) :
  pc m = P_actuate ->
  fan_consistent m -> fan_consistent (set_pc P_end (loop_actuate m)).
Proof.
  intros Hpc (H1 & H2 & H3 & H4 & H5 & H6 & H7).
  destruct (set_pc_keeps P_end (loop_actuate m)) as (P1 & P2 & P3 & _).
  destruct (fan_vars_eq _ _ P3) as (Q1 & Q2 & Q3 & Q4).
  unfold fan_consistent. rewrite P1, P2, Q1, Q2, Q3, Q4.
  destruct (fanSpeeds_eqb (fanLastSpeed m) (fanSpeed m)) eqn:E.
  - apply fanSpeeds_eqb_eq in E. rewrite (loop_actuate_same m E).
    clear P1 P2 P3 Q1 Q2 Q3 Q4.
    open_machine m. simpl in *. conjs; try assumption; try lia.
    + left. symmetry. exact E.
    + intros C. exfalso. apply C. symmetry. exact E.
  - apply fanSpeeds_eqb_neq in E.
    destruct (loop_actuate_change m E) as (_ & Fa & Ft & Fm & Fl & Fg).
    assert (Fs : fanSpeed (loop_actuate m) = fanSpeed m)
      by (injection Fg; intros; assumption).
    pose proof (presses_for_nonneg (fanSpeed m)) as Hp.
    rewrite Fa, Fm, Fl, Fs, last_end_snoc, last_target_snoc.
    simpl a_end. simpl a_target. conjs.
    + lia.
    + lia.
    + apply elapsed_assign_now.
    + exact H3.
    + reflexivity.
    + apply timeline_snoc; [exact H5|].
      unfold follows. simpl a_start. simpl a_end. simpl a_target.
      rewrite <- H4. conjs.
      * lia.
      * exact Ft.
      * exact H3.
      * congruence.
      * intros Hoff.
        destruct H6 as [H6|[H6|(_ & H6)]];
          [congruence|contradiction|exact H6].
    + left. reflexivity.
    + intros C. exfalso. apply C. reflexivity.
Qed.

Lemma fan_consistent_step (a : Action) (m : Machine) :
  fan_consistent m -> fan_consistent (step a m).
Proof.
  intros H. destruct a as [e|pData|].
  - unfold step, run_phase. destruct (pc m) eqn:Hpc; simpl next_phase.
    + destruct (set_pc_keeps P_connect (loop_idle e m)) as (P1 & P2 & P3 & _).
      destruct (loop_idle_frame e m) as (Fv & _ & _ & Ft & _).
      apply (fan_consistent_same m); [congruence|lia| |exact H].
      left. rewrite P1, Hpc. split; discriminate.
    + destruct (set_pc_keeps P_display (loop_connect e m))
        as (P1 & P2 & P3 & _).
      destruct (loop_connect_frame e m) as (Fv & _ & Ft & _).
      apply (fan_consistent_same m); [congruence|lia| |exact H].
      left. rewrite P1, Hpc. split; discriminate.
    + destruct (set_pc_keeps P_decide (loop_display m)) as (P1 & P2 & P3 & _).
      destruct (loop_display_frame m) as (Fv & _ & _ & _ & Ft & _).
      apply (fan_consistent_same m); [congruence|lia| |exact H].
      left. rewrite P1, Hpc. split; discriminate.
    + apply fan_consistent_decide; assumption.
    + apply fan_consistent_actuate; assumption.
    + destruct (set_pc_keeps P_idle (loop_end m)) as (P1 & P2 & P3 & _).
      destruct (loop_end_frame m) as (Fv & _ & _ & Ft & _).
      apply (fan_consistent_same m); [congruence|lia| |exact H].
      left. rewrite P1, Hpc. split; discriminate.
  - simpl step. destruct (callback_frame pData m) as (Fv & _ & Ft & Fp).
    apply (fan_consistent_same m); [exact Fv|lia| |exact H].
    right. split; assumption.
  - simpl step. destruct (onDisconnect_frame m) as (Fv & _ & _ & Ft & Fp).
    apply (fan_consistent_same m); [exact Fv|lia| |exact H].
    right. split; assumption.
Qed.

Lemma fan_consistent_power_on (d : N) : fan_consistent (power_on d).
Proof.
  unfold fan_consistent. simpl actuations. simpl last_end.
  change (now (power_on d)) with (0 + Z.of_N d).
  conjs; try reflexivity; try discriminate; try lia.
  - right; left. reflexivity.
Qed.

Lemma reachable_fan_consistent (m : Machine) : reachable m -> fan_consistent m.
Proof.
  apply (reachable_keeps fan_consistent).
  - apply fan_consistent_power_on.
  - apply fan_consistent_step.
Qed.

Lemma example_run_reachable : reachable example_run.
Proof. exists 0%N, dwell_schedule. reflexivity. Qed.

(** Heart-rate driven changes respect the dwell.  In every reachable
    machine, each recorded actuation whose target is a running speed (Low,
    Med or High) started more than 15000 ms after the previous actuation
    ended, and more than 15000 ms after power-on if it is the first one.
    Only an actuation that switches the fan off can come earlier. *)
Theorem speed_changes_respect_dwell (m : Machine) :
  reachable m ->
  (forall a l, actuations m = a :: l ->
               a_target a <> fsOff -> 15000 < a_start a) /\
  (forall l1 a b l2, actuations m = l1 ++ a :: b :: l2 ->
                     a_target b <> fsOff -> 15000 < a_start b - a_end a).
Proof.
  intros R. destruct (reachable_fan_consistent m R) as (_ & _ & _ & _ & T & _).
  split.
  - intros a l E Hoff. rewrite E in T. simpl in T.
    destruct T as ((_ & _ & _ & _ & H) & _). specialize (H Hoff). lia.
  - intros l1 a b l2 E Hoff. rewrite E in T.
    destruct (timeline_neighbours _ _ _ _ _ _ T) as (_ & _ & _ & _ & H).
    exact (H Hoff).
Qed.

Lemma speed_changes_respect_dwell_witness :
  (forall a l, actuations example_run = a :: l ->
               a_target a <> fsOff -> 15000 < a_start a) /\
  (forall l1 a b l2, actuations example_run = l1 ++ a :: b :: l2 ->
                     a_target b <> fsOff -> 15000 < a_start b - a_end a).
Proof.
  apply (speed_changes_respect_dwell example_run).
  exists 0%N, dwell_schedule. reflexivity.
Defined.

(** Actuations never overlap and have a fixed length.  In every reachable
    machine each recorded actuation lasts exactly 3000 ms plus 500 ms per
    short press of its target, each starts no earlier than the previous
    one ended, and the last one ended no later than now. *)
Theorem actuations_are_sequential (m : Machine) :
  reachable m ->
  Forall (fun a => 0 <= a_start a /\
                   a_end a = a_start a + 3000 + 500 * presses_for (a_target a))
         (actuations m) /\
  (forall l1 a b l2, actuations m = l1 ++ a :: b :: l2 ->
                     a_end a <= a_start b) /\
  last_end 0 (actuations m) <= now m.
Proof.
  intros R.
  destruct (reachable_fan_consistent m R) as (H1 & _ & _ & _ & T & _).
  conjs.
  - apply Forall_forall. intros a Ha.
    destruct (in_split _ _ Ha) as (l1 & l2 & E). rewrite E in T.
    destruct (timeline_member _ _ _ _ _ T) as (e & t & He & Hf & Hd & _).
    split; [lia|exact Hd].
  - intros l1 a b l2 E. rewrite E in T.
    destruct (timeline_neighbours _ _ _ _ _ _ T) as (H & _). exact H.
  - lia.
Qed.

Lemma actuations_are_sequential_witness :
  Forall (fun a => 0 <= a_start a /\
                   a_end a = a_start a + 3000 + 500 * presses_for (a_target a))
         (actuations example_run) /\
  (forall l1 a b l2, actuations example_run = l1 ++ a :: b :: l2 ->
                     a_end a <= a_start b) /\
  last_end 0 (actuations example_run) <= now example_run.
Proof.
  apply (actuations_are_sequential example_run).
  exists 0%N, dwell_schedule. reflexivity.
Defined.

(** The applied speed changes only through an actuation.  In every
    reachable machine [fanLastSpeed] is the target of the last recorded
    actuation ([fsInit] while there is none); no actuation has target
    [fsInit]; two actuations in a row never have the same target; and the
    desired speed [fanSpeed] is never [fsInit]. *)
Theorem applied_speed_is_last_target (m : Machine) :
  reachable m ->
  fanLastSpeed m = last_target fsInit (actuations m) /\
  Forall (fun a => a_target a <> fsInit) (actuations m) /\
  (forall l1 a b l2, actuations m = l1 ++ a :: b :: l2 ->
                     a_target b <> a_target a) /\
  fanSpeed m <> fsInit.
Proof.
  intros R.
  destruct (reachable_fan_consistent m R) as (_ & _ & H3 & H4 & T & _).
  conjs; try assumption.
  - apply Forall_forall. intros a Ha.
    destruct (in_split _ _ Ha) as (l1 & l2 & E). rewrite E in T.
    destruct (timeline_member _ _ _ _ _ T) as (e & t & _ & _ & _ & Hi & _).
    exact Hi.
  - intros l1 a b l2 E. rewrite E in T.
    destruct (timeline_neighbours _ _ _ _ _ _ T) as (_ & _ & _ & H & _).
    exact H.
Qed.

Lemma applied_speed_is_last_target_witness :
  fanLastSpeed example_run = last_target fsInit (actuations example_run) /\
  Forall (fun a => a_target a <> fsInit) (actuations example_run) /\
  (forall l1 a b l2, actuations example_run = l1 ++ a :: b :: l2 ->
                     a_target b <> a_target a) /\
  fanSpeed example_run <> fsInit.
Proof.
  apply (applied_speed_is_last_target example_run).
  exists 0%N, dwell_schedule. reflexivity.
Defined.

(** Desired and applied speed differ only for a moment.  In every
    reachable machine in which an actuation has taken place, [fanSpeed]
    and [fanLastSpeed] are equal except between the decision and the
    actuation of one iteration of [loop()]. *)
Theorem desired_is_applied_between_iterations (m : Machine) :
  reachable m -> actuations m <> [] -> pc m <> P_actuate ->
  fanSpeed m = fanLastSpeed m.
Proof.
  intros R Ha Hp.
  destruct (reachable_fan_consistent m R) as (_ & _ & _ & _ & _ & _ & H7).
  destruct (fanSpeeds_eqb (fanLastSpeed m) (fanSpeed m)) eqn:E.
  - apply fanSpeeds_eqb_eq in E. symmetry. exact E.
  - apply fanSpeeds_eqb_neq in E. exfalso. apply Ha. apply H7; congruence.
Qed.

Lemma desired_is_applied_between_iterations_witness :
  fanSpeed example_run = fanLastSpeed example_run.
Proof.
  apply (desired_is_applied_between_iterations example_run).
  - exists 0%N, dwell_schedule. reflexivity.
  - vm_compute. discriminate.
  - vm_compute. discriminate.
Defined.

(** What the timer shows.  In every reachable machine [msSinceFanChange]
    reads the time since the last actuation ended (since power-on while
    there is none), reduced modulo 2^32: it never shows more than the time
    that really passed, and it is exact while less than 2^32 ms (about
    49.7 days) have passed. *)
Theorem timer_counts_from_last_actuation (m : Machine) :
  reachable m ->
  ms_since m = (now m - last_end 0 (actuations m)) mod two32 /\
  ms_since m <= now m - last_end 0 (actuations m) /\
  (now m - last_end 0 (actuations m) < two32 ->
   ms_since m = now m - last_end 0 (actuations m)).
Proof.
  intros R. destruct (reachable_fan_consistent m R) as (H1 & H2 & _).
  assert (E : ms_since m = (now m - last_end 0 (actuations m)) mod two32).
  { unfold ms_since. rewrite H2. unfold elapsed_read, millis. simpl ms.
    rewrite Zminus_mod_idemp_r, Zminus_mod_idemp_l. reflexivity. }
  rewrite E. assert (0 < two32) by reflexivity. conjs.
  - reflexivity.
  - apply Z.mod_le; lia.
  - intros Hlt. apply Z.mod_small. lia.
Qed.

Lemma timer_counts_from_last_actuation_witness :
  ms_since example_run = 1000.
Proof.
  destruct (timer_counts_from_last_actuation example_run) as (_ & _ & H).
  - exists 0%N, dwell_schedule. reflexivity.
  - apply H. vm_compute. reflexivity.
Defined.

(** ** Who writes to the fan line, and how often the scanner is set up *)

Lemma trace_emit (ev : IO) (m : Machine) : trace (emit ev m) = ev :: trace m.
Proof. open_machine m. reflexivity. Qed.

Lemma trace_set_pc (q : Phase) (m : Machine) : trace (set_pc q m) = trace m.
Proof. open_machine m. reflexivity. Qed.

(** Printing the payload adds serial output only. *)
Lemma print_payload_filter (f : IO -> bool) (pData : list byte) :
  (forall n, f (EvSerialNum n) = false) ->
  (forall s, f (EvSerial s) = false) ->
  forall m, filter f (trace (print_payload pData m)) = filter f (trace m).
Proof.
  intros Hn Hs. induction pData as [|b rest IH]; intros m.
  - reflexivity.
  - simpl print_payload. unfold seq, Serial_printNum, Serial_print.
    rewrite IH, !trace_emit. simpl filter. rewrite Hs, Hn. reflexivity.
Qed.

Lemma callback_filter (f : IO -> bool) (pData : list byte) (m : Machine) :
  (forall n, f (EvSerialNum n) = false) ->
  (forall s, f (EvSerial s) = false) ->
  filter f (trace (heartRateNotifyCallback pData m)) = filter f (trace m).
Proof.
  intros Hn Hs. unfold heartRateNotifyCallback.
  destruct (Z.of_nat (List.length pData) <? 2).
  - unfold Serial_print. rewrite trace_emit. simpl. rewrite Hs. reflexivity.
  - cbv beta zeta. unfold seq, Serial_print.
    rewrite trace_emit. simpl filter. rewrite Hs.
    rewrite (print_payload_filter f pData Hn Hs), trace_emit.
    simpl filter. rewrite Hs.
    destruct ((0 <? u8 (nth 1 pData x00)) &&
              negb (heartRate m =? u8 (nth 1 pData x00)));
      open_machine m; reflexivity.
Qed.

(** Every step except an actuation leaves the fan line alone. *)
Lemma fanLine_untouched (e : Env) (m : Machine) :
  fanLine (trace (onDisconnect m)) = fanLine (trace m) /\
  fanLine (trace (loop_idle e m)) = fanLine (trace m) /\
  fanLine (trace (loop_connect e m)) = fanLine (trace m) /\
  fanLine (trace (loop_display m)) = fanLine (trace m) /\
  fanLine (trace (loop_decide m)) = fanLine (trace m) /\
  fanLine (trace (loop_end m)) = fanLine (trace m).
Proof.
  conjs.
  - open_machine m. by_running.
  - open_machine m. destruct e as [hit st' srv ct].
    destruct st; try by_running; destruct ps, hit; by_running.
  - open_machine m. destruct e as [hit st' srv ct].
    destruct dc; try by_running; destruct srv; by_running.
  - open_machine m. destruct nh, os, st, fs; by_running.
  - destruct (loop_decide_frame m) as (_ & _ & _ & _ & _ & -> & _).
    reflexivity.
  - open_machine m. by_running.
Qed.

Lemma fanLine_actuate (m : Machine) :
  fanLine (trace (loop_actuate m)) =
  (if fanSpeeds_eqb (fanLastSpeed m) (fanSpeed m)
   then []
   else rev (fanLine (hold_off ++
                      short_presses (Z.to_nat (presses_for (fanSpeed m))))))
  ++ fanLine (trace m).
Proof.
  destruct (fanSpeeds_eqb (fanLastSpeed m) (fanSpeed m)) eqn:E.
  - apply fanSpeeds_eqb_eq in E. rewrite (loop_actuate_same m E).
    open_machine m. reflexivity.
  - apply fanSpeeds_eqb_neq in E.
    destruct (loop_actuate_change m E) as (-> & _).
    unfold fanLine. rewrite filter_app, filter_rev. f_equal. f_equal.
    rewrite (filter_app _ (report m)),
      (filter_app _ (output_of updateDisplay m)).
    pose proof (updateDisplay_fanLine m) as D. unfold fanLine in D.
    rewrite D. reflexivity.
Qed.

Lemma fanLine_history_app (m m' : Machine) (new : list IO) :
  fanLine (trace m') = rev new ++ fanLine (trace m) ->
  fanLine (history m') = fanLine (history m) ++ new.
Proof.
  intros H. unfold history, fanLine in *.
  rewrite !filter_rev, H, rev_app_distr, rev_involutive. reflexivity.
Qed.

(** The fan line written so far, in program order. *)
Lemma fanLine_step (a : Action) (m : Machine) :
  fanLine (history m) =
    EvDigitalWrite FAN_OUT BUTTON_NOT_PRESSED
    :: flat_map line_of (actuations m) ->
  fanLine (history (step a m)) =
    EvDigitalWrite FAN_OUT BUTTON_NOT_PRESSED
    :: flat_map line_of (actuations (step a m)).
Proof.
  intros H.
  assert (Same : forall m', fanLine (trace m') = fanLine (trace m) ->
                            actuations m' = actuations m ->
                            fanLine (history m') =
                            EvDigitalWrite FAN_OUT BUTTON_NOT_PRESSED
                            :: flat_map line_of (actuations m')).
  { intros m' Ht Ha. rewrite Ha, <- H. unfold history, fanLine in *.
    rewrite !filter_rev, Ht. reflexivity. }
  destruct (fanLine_untouched (mkEnv false 0 Ready 0) m) as (Fd & _).
  destruct a as [e|pData|].
  - destruct (fanLine_untouched e m) as (_ & Fi & Fc & Fs & Fe & Fn).
    unfold step, run_phase.
    destruct (set_pc_keeps (next_phase (pc m))
                (match pc m with
                 | P_idle => loop_idle e m
                 | P_connect => loop_connect e m
                 | P_display => loop_display m
                 | P_decide => loop_decide m
                 | P_actuate => loop_actuate m
                 | P_end => loop_end m
                 end)) as (_ & _ & Pv & _).
    destruct (fan_vars_eq _ _ Pv) as (_ & _ & _ & Pa).
    destruct (pc m).
    + apply Same; [rewrite trace_set_pc; exact Fi|].
      rewrite Pa. destruct (loop_idle_frame e m) as (Fv & _).
      apply (fan_vars_eq _ _ Fv).
    + apply Same; [rewrite trace_set_pc; exact Fc|].
      rewrite Pa. destruct (loop_connect_frame e m) as (Fv & _).
      apply (fan_vars_eq _ _ Fv).
    + apply Same; [rewrite trace_set_pc; exact Fs|].
      rewrite Pa. destruct (loop_display_frame m) as (Fv & _).
      apply (fan_vars_eq _ _ Fv).
    + apply Same; [rewrite trace_set_pc; exact Fe|].
      rewrite Pa. apply loop_decide_frame.
    + rewrite Pa.
      rewrite (fanLine_history_app m _
                 (if fanSpeeds_eqb (fanLastSpeed m) (fanSpeed m)
                  then []
                  else fanLine (hold_off ++ short_presses
                                  (Z.to_nat (presses_for (fanSpeed m)))))).
      2:{ rewrite trace_set_pc, fanLine_actuate.
          destruct (fanSpeeds_eqb (fanLastSpeed m) (fanSpeed m)); reflexivity. }
      rewrite H.
      destruct (fanSpeeds_eqb (fanLastSpeed m) (fanSpeed m)) eqn:E.
      * apply fanSpeeds_eqb_eq in E. rewrite (loop_actuate_same m E).
        rewrite app_nil_r. open_machine m. reflexivity.
      * apply fanSpeeds_eqb_neq in E.
        destruct (loop_actuate_change m E) as (_ & -> & _).
        rewrite flat_map_app. simpl flat_map. rewrite app_nil_r.
        reflexivity.
    + apply Same; [rewrite trace_set_pc; exact Fn|].
      rewrite Pa. destruct (loop_end_frame m) as (Fv & _).
      apply (fan_vars_eq _ _ Fv).
  - simpl step. apply Same.
    + apply callback_filter; intros; reflexivity.
    + destruct (callback_frame pData m) as (Fv & _).
      apply (fan_vars_eq _ _ Fv).
  - simpl step. apply Same; [exact Fd|].
    destruct (onDisconnect_frame m) as (Fv & _). apply (fan_vars_eq _ _ Fv).
Qed.

Lemma line_of_ends_released (a : Actuation) :
  exists pre,
    line_of a = pre ++ [EvDigitalWrite FAN_OUT BUTTON_NOT_PRESSED].
Proof.
  unfold line_of. destruct (a_target a).
  - exists [EvDigitalWrite FAN_OUT BUTTON_PRESSED]. reflexivity.
  - exists [EvDigitalWrite FAN_OUT BUTTON_PRESSED]. reflexivity.
  - exists (firstn 7 (fanLine (hold_off ++ short_presses 3))). reflexivity.
  - exists (firstn 5 (fanLine (hold_off ++ short_presses 2))). reflexivity.
  - exists (firstn 3 (fanLine (hold_off ++ short_presses 1))). reflexivity.
Qed.

Lemma released_at_end (l : list Actuation) :
  last (EvDigitalWrite FAN_OUT BUTTON_NOT_PRESSED :: flat_map line_of l)
       (EvDigitalWrite FAN_OUT BUTTON_PRESSED) =
  EvDigitalWrite FAN_OUT BUTTON_NOT_PRESSED.
Proof.
  induction l as [|a rest IH] using rev_ind.
  - reflexivity.
  - rewrite flat_map_app. cbn [flat_map]. rewrite app_nil_r.
    destruct (line_of_ends_released a) as (pre & ->).
    rewrite app_comm_cons, app_assoc. apply last_last.
Qed.

(** The fan line belongs to [setFanSpeed].  In every reachable machine the
    writes to the fan line so far are the release made by [setup] followed,
    for each recorded actuation in order, by the presses and releases of
    its sequence, and nothing else; in particular the last write is always
    a release, so between two steps the button is never left pressed. *)
Theorem fan_line_written_by_actuations_only (m : Machine) :
  reachable m ->
  fanLine (history m) =
    EvDigitalWrite FAN_OUT BUTTON_NOT_PRESSED
    :: flat_map line_of (actuations m) /\
  last (fanLine (history m)) (EvDigitalWrite FAN_OUT BUTTON_PRESSED) =
    EvDigitalWrite FAN_OUT BUTTON_NOT_PRESSED.
Proof.
  intros R.
  assert (H : fanLine (history m) =
              EvDigitalWrite FAN_OUT BUTTON_NOT_PRESSED
              :: flat_map line_of (actuations m)).
  { revert m R. apply reachable_keeps.
    - intros d. reflexivity.
    - intros a m. apply fanLine_step. }
  split; [exact H|]. rewrite H. apply released_at_end.
Qed.

Lemma fan_line_written_by_actuations_only_witness :
  fanLine (history example_run) =
    EvDigitalWrite FAN_OUT BUTTON_NOT_PRESSED
    :: flat_map line_of (actuations example_run) /\
  last (fanLine (history example_run)) (EvDigitalWrite FAN_OUT BUTTON_PRESSED) =
    EvDigitalWrite FAN_OUT BUTTON_NOT_PRESSED.
Proof.
  apply (fan_line_written_by_actuations_only example_run).
  exists 0%N, dwell_schedule. reflexivity.
Defined.

(** The three calls that set the scanner up are each counted by one of
    these; every step keeps their count in line with [pBLEScan]. *)
Lemma scanner_step (f : IO -> bool) (a : Action) (m : Machine) :
  f = is_get_scan \/ f = is_set_callbacks \/ f = is_set_active ->
  count_events f (trace m) = (if pBLEScan m then 1 else 0)%nat ->
  count_events f (trace (step a m)) =
  (if pBLEScan (step a m) then 1 else 0)%nat.
Proof.
  intros [-> | [-> | ->]] H;
    (destruct a as [e|pData|];
     [ unfold step, run_phase; rewrite trace_set_pc;
       destruct (globals_fields _ _ (globals_set_pc (next_phase (pc m))
                   (match pc m with
                    | P_idle => loop_idle e m
                    | P_connect => loop_connect e m
                    | P_display => loop_display m
                    | P_decide => loop_decide m
                    | P_actuate => loop_actuate m
                    | P_end => loop_end m
                    end))) as (_ & _ & _ & _ & -> & _);
       destruct (pc m);
       [ open_machine m; destruct e as [hit st' srv ct];
         destruct st; try (count_by_running H); destruct ps, hit;
         count_by_running H
       | open_machine m; destruct e as [hit st' srv ct];
         destruct dc; try (count_by_running H); destruct srv;
         count_by_running H
       | open_machine m; destruct nh, os, st, fs; count_by_running H
       | destruct (loop_decide_frame m) as (_ & _ & _ & _ & _ & -> & _);
         rewrite loop_decide_cases;
         destruct (state_eqb (myState m) stConnected), (newHeartRate m),
           (15000 <? ms_since m); open_machine m; exact H
       | open_machine m; destruct fl, fs, st; count_by_running H
       | open_machine m; count_by_running H ]
     | simpl step; unfold count_events in *;
       rewrite callback_filter by (intros; reflexivity);
       rewrite H;
       destruct (callback_globals pData m) as [E|(b & _ & E)];
       apply globals_fields in E; destruct E as (_ & _ & _ & _ & -> & _);
       [reflexivity|open_machine m; reflexivity]
     | simpl step; open_machine m; count_by_running H ]).
Qed.

(** The scanner is set up once.  In every reachable machine each of the
    three calls that set the scanner up ([getScan], the registration of
    the advertisement callback, [setActiveScan(true)]) has been made
    exactly once if [pBLEScan] is set and not at all otherwise:
    [startScan] never configures the scanner a second time. *)
Theorem scanner_is_configured_once (m : Machine) :
  reachable m ->
  let once := (if pBLEScan m then 1 else 0)%nat in
  count_events is_get_scan (trace m) = once /\
  count_events is_set_callbacks (trace m) = once /\
  count_events is_set_active (trace m) = once /\
  (once <= 1)%nat.
Proof.
  intros R once.
  assert (H : forall f,
             f = is_get_scan \/ f = is_set_callbacks \/ f = is_set_active ->
             count_events f (trace m) = once).
  { intros f Hf. subst once. revert m R. apply reachable_keeps.
    - intros d. destruct Hf as [-> | [-> | ->]]; reflexivity.
    - intros a m. apply scanner_step. exact Hf. }
  conjs.
  - apply H. left. reflexivity.
  - apply H. right; left. reflexivity.
  - apply H. right; right. reflexivity.
  - subst once. destruct (pBLEScan m); lia.
Qed.

Lemma scanner_is_configured_once_witness :
  count_events is_get_scan (trace example_run) = 1%nat /\
  count_events is_set_callbacks (trace example_run) = 1%nat /\
  count_events is_set_active (trace example_run) = 1%nat.
Proof.
  destruct (scanner_is_configured_once example_run) as (H1 & H2 & H3 & _).
  - exists 0%N, dwell_schedule. reflexivity.
  - conjs; [exact H1|exact H2|exact H3].
Defined.

(** ** Whole iterations of [loop()] *)

(** One iteration started connected, with nothing pending and the applied
    speed equal to the desired one. *)
Lemma loop_quiet (e : Env) (m : Machine) :
  quiet m ->
  quiet (loop e m) /\ fan_vars (loop e m) = fan_vars m /\
  heartRate (loop e m) = heartRate m /\
  now (loop e m) = now m + 1000 /\
  fanLine (trace (loop e m)) = fanLine (trace m) /\
  count_events is_ble (trace (loop e m)) = count_events is_ble (trace m).
Proof.
  intros (Hp & Hs & Hd & Hn & Hf).
  open_machine m. destruct e as [hit st' srv ct].
  simpl in Hp, Hs, Hd, Hn, Hf. subst p st dc nh fl.
  unfold quiet. destruct os, fs; conjs; by_stepping.
Qed.

(** Quiet iterations keep the machine quiet and the fan variables and the
    heart rate as they are. *)
Lemma loops_quiet (es : list Env) :
  forall m,
    quiet m ->
    quiet (loops es m) /\ fan_vars (loops es m) = fan_vars m /\
    heartRate (loops es m) = heartRate m.
Proof.
  induction es as [|e rest IH]; intros m Q.
  - simpl loops. conjs; try reflexivity. exact Q.
  - simpl loops.
    destruct (loop_quiet e m Q) as (Q1 & V1 & H1 & _).
    destruct (IH _ Q1) as (Q2 & V2 & H2).
    conjs; try assumption; congruence.
Qed.

(** Nothing happens without a new sample.  Started connected, with no
    sample pending, no connection attempt pending and the applied speed
    equal to the desired one, any number of iterations of [loop()] (no
    callback in between) only print and wait: each takes exactly 1000 ms,
    none calls the BLE stack, writes the fan line or actuates, and the fan
    variables and the heart rate stay as they are. *)
Theorem quiet_iterations_do_nothing (es : list Env) (m : Machine) :
  quiet m ->
  quiet (loops es m) /\ fan_vars (loops es m) = fan_vars m /\
  heartRate (loops es m) = heartRate m /\
  now (loops es m) = now m + 1000 * Z.of_nat (List.length es) /\
  fanLine (trace (loops es m)) = fanLine (trace m) /\
  count_events is_ble (trace (loops es m)) = count_events is_ble (trace m).
Proof.
  revert m. induction es as [|e rest IH]; intros m Q.
  - simpl loops. conjs; try reflexivity; try exact Q. simpl. lia.
  - simpl loops.
    destruct (loop_quiet e m Q) as (Q1 & V1 & H1 & N1 & L1 & B1).
    destruct (IH _ Q1) as (Q2 & V2 & H2 & N2 & L2 & B2).
    conjs; try assumption; try congruence.
    rewrite N2, N1. simpl List.length. lia.
Qed.

Lemma quiet_iterations_do_nothing_witness :
  now (loops [env_hit; env_miss; env_fail] settled) = 43000 /\
  fan_vars (loops [env_hit; env_miss; env_fail] settled) = fan_vars settled.
Proof.
  destruct (quiet_iterations_do_nothing [env_hit; env_miss; env_fail] settled)
    as (_ & V & _ & N & _).
  - unfold quiet. conjs; reflexivity.
  - split; [exact N|exact V].
Defined.

Lemma loop_idle_skip (e : Env) (m : Machine) :
  myState m <> stIdle -> loop_idle e m = m.
Proof.
  intros H. unfold loop_idle.
  destruct (state_eqb (myState m) stIdle) eqn:E; [|reflexivity].
  apply state_eqb_eq in E. contradiction.
Qed.

Lemma loop_connect_skip (e : Env) (m : Machine) :
  doConnect m = false -> loop_connect e m = m.
Proof. intros H. unfold loop_connect. rewrite H. reflexivity. Qed.

Lemma set_trace_twice (t1 t2 : list IO) (m : Machine) :
  set_trace t2 (set_trace t1 m) = set_trace t2 m.
Proof. open_machine m. reflexivity. Qed.

(** An iteration started connected with no connection attempt pending
    begins at the display. *)
Lemma loop_connected (e : Env) (m : Machine) :
  myState m = stConnected -> doConnect m = false ->
  loop e m =
  loop_end (loop_actuate (loop_decide (set_trace (trace (loop_display m)) m))).
Proof.
  intros Hs Hd. unfold loop, seq.
  rewrite loop_idle_skip by (rewrite Hs; discriminate).
  rewrite loop_connect_skip by exact Hd.
  rewrite <- loop_display_only_output. reflexivity.
Qed.

(** The shape of an iteration that consumes a sample during the dwell. *)
Lemma loop_early (e : Env) (m : Machine) :
  myState m = stConnected -> doConnect m = false ->
  newHeartRate m = true -> fanLastSpeed m = fanSpeed m ->
  ms_since m <= 15000 ->
  exists X, loop e m = loop_end (set_trace X (set_newHeartRate false m)).
Proof.
  intros Hs Hd Hn Hf Ht. rewrite (loop_connected e m Hs Hd).
  generalize (trace (loop_display m)). intros T.
  assert (D : loop_decide (set_trace T m) =
              set_newHeartRate false (set_trace T m)).
  { rewrite loop_decide_cases.
    replace (myState (set_trace T m)) with stConnected
      by (open_machine m; symmetry; exact Hs).
    replace (newHeartRate (set_trace T m)) with true
      by (open_machine m; symmetry; exact Hn).
    replace (ms_since (set_trace T m)) with (ms_since m)
      by (open_machine m; reflexivity).
    apply Z.ltb_ge in Ht. rewrite Ht. reflexivity. }
  rewrite D.
  rewrite loop_actuate_same by (open_machine m; exact Hf).
  eexists. f_equal. open_machine m. reflexivity.
Qed.

(** A sample that arrives too early is lost.  Started connected with a
    sample pending, the applied speed equal to the desired one and at most
    15000 ms on the timer, one iteration consumes the sample without
    changing the fan, and no later iteration acts on it either: as long
    as no callback is delivered, the fan variables stay as they are
    through any number of further iterations. *)
Theorem early_sample_is_never_applied
        (e : Env) (es : list Env) (m : Machine) :
  pc m = P_idle -> myState m = stConnected -> doConnect m = false ->
  newHeartRate m = true -> fanLastSpeed m = fanSpeed m ->
  ms_since m <= 15000 ->
  newHeartRate (loop e m) = false /\
  fan_vars (loops es (loop e m)) = fan_vars m /\
  heartRate (loops es (loop e m)) = heartRate m.
Proof.
  intros Hp Hs Hd Hn Hf Ht.
  assert (Q : quiet (loop e m) /\ fan_vars (loop e m) = fan_vars m /\
              heartRate (loop e m) = heartRate m).
  { destruct (loop_early e m Hs Hd Hn Hf Ht) as (X & ->).
    open_machine m. simpl in Hp, Hs, Hd, Hn, Hf. subst p st dc nh fl.
    unfold quiet. conjs; by_running. }
  destruct Q as (Q & V & H).
  destruct (loops_quiet es _ Q) as (_ & V' & H').
  conjs; [apply Q|congruence|congruence].
Qed.

Lemma early_sample_is_never_applied_witness :
  newHeartRate (loop env_hit (set_pc P_idle early_sample)) = false /\
  fan_vars (loops [env_hit; env_hit] (loop env_hit (set_pc P_idle early_sample)))
    = fan_vars (set_pc P_idle early_sample) /\
  heartRate (loops [env_hit; env_hit]
               (loop env_hit (set_pc P_idle early_sample))) = 135.
Proof.
  apply (early_sample_is_never_applied env_hit [env_hit; env_hit]
           (set_pc P_idle early_sample)); try reflexivity.
  vm_compute. discriminate.
Defined.

Lemma elapsed_after_reset (t d : Z) :
  0 <= d < two32 -> elapsed_read (t + d) (elapsed_assign t 0) = d.
Proof.
  intros H. rewrite elapsed_assign_now. unfold elapsed_read, millis. simpl ms.
  unfold two32 in *.
  rewrite Zminus_mod_idemp_r, Zminus_mod_idemp_l.
  replace (t + d - t) with d by lia. apply Z.mod_small. lia.
Qed.



(** ** From the decision to the end of an iteration, with callbacks *)

(** Callbacks leave the fan variables, the clock and the position in
    [loop()] alone. *)
Lemma run_callbacks_frame (cbs : list Action) :
  callbacks_only cbs = true ->
  forall m, fan_vars (run cbs m) = fan_vars m /\
            now (run cbs m) = now m /\ pc (run cbs m) = pc m.
Proof.
  induction cbs as [|a rest IH]; intros H m.
  - conjs; reflexivity.
  - unfold callbacks_only in *. simpl forallb in H.
    apply andb_prop in H. destruct H as (Ha & Hrest).
    simpl run. fold (run rest (step a m)).
    destruct (IH Hrest (step a m)) as (-> & -> & ->).
    destruct a as [e|pData|]; [discriminate Ha| |].
    + destruct (callback_frame pData m) as (V & _ & T & P).
      conjs; assumption.
    + destruct (onDisconnect_frame m) as (V & _ & _ & T & P).
      conjs; assumption.
Qed.

(** The actuation phase as a step of the schedule. *)
Lemma actuate_step (e : Env) (m : Machine) :
  pc m = P_actuate ->
  fanSpeed (step (Main e) m) = fanSpeed m /\
  fanLastSpeed (step (Main e) m) = fanSpeed m /\
  pc (step (Main e) m) = P_end /\
  (fanLastSpeed m = fanSpeed m ->
   actuations (step (Main e) m) = actuations m /\
   now (step (Main e) m) = now m) /\
  (fanLastSpeed m <> fanSpeed m ->
   actuations (step (Main e) m) =
     actuations m ++
     [mkActuation (now m)
        (now m + 3000 + 500 * presses_for (fanSpeed m)) (fanSpeed m)] /\
   now (step (Main e) m) = now m + 3000 + 500 * presses_for (fanSpeed m) /\
   msSinceFanChange (step (Main e) m) =
     elapsed_assign (now (step (Main e) m)) 0).
Proof.
  intros Hpc. unfold step, run_phase. rewrite Hpc. simpl next_phase.
  destruct (set_pc_keeps P_end (loop_actuate m)) as (P1 & P2 & P3 & _).
  destruct (fan_vars_eq _ _ P3) as (Q1 & Q2 & Q3 & Q4).
  rewrite P1, P2, Q1, Q2, Q3, Q4.
  destruct (loop_actuate_keeps m) as (_ & Fs & _).
  destruct (fanSpeeds_eqb (fanLastSpeed m) (fanSpeed m)) eqn:E.
  - apply fanSpeeds_eqb_eq in E. conjs; try reflexivity.
    + exact Fs.
    + rewrite (loop_actuate_same m E). open_machine m. exact E.
    + intros _. rewrite (loop_actuate_same m E). open_machine m.
      split; reflexivity.
    + intros C. contradiction.
  - apply fanSpeeds_eqb_neq in E.
    destruct (loop_actuate_change m E) as (_ & Fa & Ft & Fm & Fl & _).
    conjs; try reflexivity.
    + exact Fs.
    + exact Fl.
    + intros C. contradiction.
    + intros _. conjs.
      * rewrite Fa, Ft. reflexivity.
      * exact Ft.
      * exact Fm.
Qed.

(** The final phase as a step of the schedule. *)
Lemma end_step (e : Env) (m : Machine) :
  pc m = P_end ->
  fan_vars (step (Main e) m) = fan_vars m /\
  now (step (Main e) m) = now m + 1000.
Proof.
  intros Hpc. unfold step, run_phase. rewrite Hpc. simpl next_phase.
  destruct (set_pc_keeps P_idle (loop_end m)) as (_ & P2 & P3 & _).
  destruct (loop_end_frame m) as (Fv & _ & _ & Ft & _).
  split; congruence.
Qed.

(** Without a link the fan is switched off and kept off.  Whenever the
    decision of an iteration is taken while the state is not Connected,
    then whatever callbacks are delivered before the actuation phase,
    after that phase the desired and the applied speed are both Off; if
    the applied speed was already Off no actuation took place, and
    otherwise exactly one actuation with target Off and length 3000 ms
    was added. *)
Theorem decision_without_link_switches_off
        (e1 e2 : Env) (cbs : list Action) (m : Machine) :
  pc m = P_decide -> myState m <> stConnected ->
  callbacks_only cbs = true ->
  let m' := step (Main e2) (run cbs (step (Main e1) m)) in
  fanSpeed m' = fsOff /\ fanLastSpeed m' = fsOff /\
  (fanLastSpeed m = fsOff -> actuations m' = actuations m) /\
  (fanLastSpeed m <> fsOff ->
   actuations m' =
   actuations m ++ [mkActuation (now m) (now m + 3000) fsOff]).
Proof.
  intros Hpc Hs Hc m'. subst m'.
  set (m1 := step (Main e1) m).
  assert (F1 : fanSpeed m1 = fsOff /\ fanLastSpeed m1 = fanLastSpeed m /\
               actuations m1 = actuations m /\ now m1 = now m /\
               pc m1 = P_actuate).
  { subst m1. unfold step, run_phase. rewrite Hpc. simpl next_phase.
    destruct (set_pc_keeps P_actuate (loop_decide m)) as (P1 & P2 & P3 & _).
    destruct (fan_vars_eq _ _ P3) as (Q1 & Q2 & _ & Q4).
    destruct (loop_decide_frame m) as (_ & F2 & _ & F4 & F5 & _).
    rewrite P1, P2, Q1, Q2, Q4, F2, F4, F5. conjs; try reflexivity.
    rewrite loop_decide_cases.
    destruct (state_eqb (myState m) stConnected) eqn:E.
    - apply state_eqb_eq in E. contradiction.
    - open_machine m. reflexivity. }
  clearbody m1. destruct F1 as (A1 & A2 & A3 & A4 & A5).
  destruct (run_callbacks_frame cbs Hc m1) as (V2 & T2 & P2).
  destruct (fan_vars_eq _ _ V2) as (B1 & B2 & _ & B4).
  set (m2 := run cbs m1) in *. clearbody m2.
  assert (Hp2 : pc m2 = P_actuate) by congruence.
  destruct (actuate_step e2 m2 Hp2) as (C1 & C2 & _ & C4 & C5).
  rewrite C1, C2, B1, A1. conjs; try reflexivity.
  - intros K. destruct C4 as (C4 & _); [congruence|]. congruence.
  - intros K. destruct C5 as (C5 & _); [congruence|].
    rewrite C5, B4, A3, T2, A4, B1, A1. simpl presses_for.
    rewrite Z.mul_0_r, Z.add_0_r. reflexivity.
Qed.

Lemma decision_without_link_switches_off_witness :
  fanSpeed (step (Main env_miss)
              (run [Notify bpm120; Disconnect]
                 (step (Main env_miss) lost_link))) = fsOff /\
  actuations (step (Main env_miss)
                (run [Notify bpm120; Disconnect]
                   (step (Main env_miss) lost_link))) =
  actuations lost_link ++ [mkActuation 30000 33000 fsOff].
Proof.
  destruct (decision_without_link_switches_off env_miss env_miss
              [Notify bpm120; Disconnect] lost_link)
    as (H1 & _ & _ & H4); try reflexivity.
  - discriminate.
  - split; [exact H1|]. apply H4. discriminate.
Defined.

(** A due sample is applied within the iteration.  Whenever the decision
    of an iteration is taken while the state is Connected, a sample is
    pending and the timer reads more than 15000 ms, the decision clears
    the flag and makes the desired speed the speed [s] that the thresholds
    give for the heart rate.  Whatever callbacks are delivered before the
    actuation phase and before the final delay, at the end of the
    iteration the desired and the applied speed are both [s]; if [s] is
    the applied speed already no actuation is made, and otherwise exactly
    one actuation with target [s] is made, the rest of the iteration takes
    4000 ms plus 500 ms per short press, and the timer then reads the
    1000 ms of the final delay. *)
Theorem due_decision_is_applied
        (e1 e2 e3 : Env) (cbs1 cbs2 : list Action) (m : Machine) :
  pc m = P_decide -> myState m = stConnected ->
  newHeartRate m = true -> 15000 < ms_since m ->
  callbacks_only cbs1 = true -> callbacks_only cbs2 = true ->
  let s := spec_desiredSpeed (heartRate m) in
  let m1 := step (Main e1) m in
  let m' := step (Main e3) (run cbs2 (step (Main e2) (run cbs1 m1))) in
  newHeartRate m1 = false /\ fanSpeed m1 = s /\
  fanSpeed m' = s /\ fanLastSpeed m' = s /\
  (s = fanLastSpeed m -> actuations m' = actuations m) /\
  (s <> fanLastSpeed m ->
   actuations m' =
     actuations m ++
     [mkActuation (now m) (now m + 3000 + 500 * presses_for s) s] /\
   now m' = now m + 4000 + 500 * presses_for s /\
   ms_since m' = 1000).
Proof.
  intros Hpc Hs Hn Ht Hc1 Hc2 s m1 m'. subst m'.
  assert (F1 : newHeartRate m1 = false /\ fanSpeed m1 = s /\
               fanLastSpeed m1 = fanLastSpeed m /\
               actuations m1 = actuations m /\ now m1 = now m /\
               pc m1 = P_actuate).
  { subst m1. unfold step, run_phase. rewrite Hpc. simpl next_phase.
    rewrite (loop_decide_due m Hs Hn Ht). fold s. clearbody s.
    open_machine m. conjs; reflexivity. }
  clearbody m1 s. destruct F1 as (A0 & A1 & A2 & A3 & A4 & A5).
  destruct (run_callbacks_frame cbs1 Hc1 m1) as (V2 & T2 & P2).
  destruct (fan_vars_eq _ _ V2) as (B1 & B2 & _ & B4).
  set (m2 := run cbs1 m1) in *. clearbody m2.
  assert (Hp2 : pc m2 = P_actuate) by congruence.
  destruct (actuate_step e2 m2 Hp2) as (C1 & C2 & C3 & C4 & C5).
  set (m3 := step (Main e2) m2) in *. clearbody m3.
  destruct (run_callbacks_frame cbs2 Hc2 m3) as (V4 & T4 & P4).
  destruct (fan_vars_eq _ _ V4) as (D1 & D2 & D3 & D4).
  set (m4 := run cbs2 m3) in *. clearbody m4.
  assert (Hp4 : pc m4 = P_end) by congruence.
  destruct (end_step e3 m4 Hp4) as (V5 & T5).
  destruct (fan_vars_eq _ _ V5) as (E1 & E2 & E3 & E4).
  conjs.
  - exact A0.
  - exact A1.
  - congruence.
  - congruence.
  - intros K. destruct C4 as (C4 & _); congruence.
  - intros K. destruct C5 as (C5 & C6 & C7); [congruence|].
    rewrite B1, A1, T2, A4 in C5, C6. conjs.
    + rewrite E4, D4, C5, B4, A3. reflexivity.
    + rewrite T5, T4, C6. lia.
    + unfold ms_since. rewrite E3, D3, C7, T5, T4.
      apply elapsed_after_reset. split; [lia|reflexivity].
Qed.

Lemma due_decision_is_applied_witness :
  fanLastSpeed (step (Main env_hit)
                  (run [Notify bpm120]
                     (step (Main env_hit)
                        (run [Notify bpm135]
                           (step (Main env_hit) (due_sample 135))))))
    = fsHigh /\
  ms_since (step (Main env_hit)
              (run [Notify bpm120]
                 (step (Main env_hit)
                    (run [Notify bpm135]
                       (step (Main env_hit) (due_sample 135))))))
    = 1000.
Proof.
  destruct (due_decision_is_applied env_hit env_hit env_hit
              [Notify bpm135] [Notify bpm120] (due_sample 135))
    as (_ & _ & _ & H4 & _ & H6); try reflexivity.
  split; [exact H4|]. apply H6. discriminate.
Defined.

(** The sample and [loop()].  No phase of [loop()] changes the latched
    heart rate.  The pending flag is touched by the decision phase only:
    that phase clears it when the state is Connected at that moment,
    whether or not the timer lets the sample change the speed, and leaves
    it as it is when the state is anything else; every other phase leaves
    it as it is. *)
Theorem loop_touches_flag_in_decision_only (e : Env) (m : Machine) :
  heartRate (step (Main e) m) = heartRate m /\
  (pc m <> P_decide ->
   newHeartRate (step (Main e) m) = newHeartRate m) /\
  (pc m = P_decide -> myState m = stConnected ->
   newHeartRate (step (Main e) m) = false) /\
  (pc m = P_decide -> myState m <> stConnected ->
   newHeartRate (step (Main e) m) = newHeartRate m).
Proof.
  unfold step, run_phase.
  destruct (globals_fields _ _ (globals_set_pc (next_phase (pc m))
              (match pc m with
               | P_idle => loop_idle e m
               | P_connect => loop_connect e m
               | P_display => loop_display m
               | P_decide => loop_decide m
               | P_actuate => loop_actuate m
               | P_end => loop_end m
               end))) as (_ & _ & -> & -> & _).
  destruct (pc m) eqn:Hpc.
  - destruct (globals_fields _ _ (loop_idle_globals e m))
      as (_ & _ & -> & -> & _).
    destruct (state_eqb (myState m) stIdle); open_machine m;
      conjs; try reflexivity; intros C; discriminate C.
  - destruct (globals_fields _ _ (loop_connect_globals e m))
      as (_ & _ & -> & -> & _).
    destruct (doConnect m); [destruct (server e)|]; open_machine m;
      conjs; try reflexivity; intros C; discriminate C.
  - destruct (globals_fields _ _ (loop_display_globals m))
      as (_ & _ & -> & -> & _).
    conjs; try reflexivity; intros C; discriminate C.
  - rewrite loop_decide_cases.
    destruct (state_eqb (myState m) stConnected) eqn:E.
    + apply state_eqb_eq in E.
      destruct (newHeartRate m) eqn:En, (15000 <? ms_since m);
        open_machine m; simpl in E, En; subst; conjs; try reflexivity;
        intros C; try contradiction; intros C'; contradiction.
    + assert (E' : myState m <> stConnected).
      { intros C. apply state_eqb_eq in C. congruence. }
      open_machine m. conjs; try reflexivity; intros C; try contradiction;
        intros C'; contradiction.
  - destruct (globals_fields _ _ (loop_actuate_globals m))
      as (_ & _ & -> & -> & _).
    destruct (fanSpeeds_eqb (fanLastSpeed m) (fanSpeed m)).
    + conjs; try reflexivity; intros C; discriminate C.
    + generalize (elapsed_assign (now (loop_actuate m)) 0). intros y.
      open_machine m. conjs; try reflexivity; intros C; discriminate C.
  - destruct (globals_fields _ _ (loop_end_globals m))
      as (_ & _ & -> & -> & _).
    open_machine m. conjs; try reflexivity; intros C; discriminate C.
Qed.

Lemma loop_touches_flag_in_decision_only_witness :
  newHeartRate (step (Main env_hit) early_sample) = false /\
  newHeartRate (step (Main env_miss) lost_link) = true /\
  newHeartRate (step (Main env_hit) stale_sample) = true.
Proof.
  destruct (loop_touches_flag_in_decision_only env_hit early_sample)
    as (_ & _ & H1 & _).
  destruct (loop_touches_flag_in_decision_only env_miss lost_link)
    as (_ & _ & _ & H2).
  destruct (loop_touches_flag_in_decision_only env_hit stale_sample)
    as (_ & H3 & _).
  conjs.
  - apply H1; reflexivity.
  - apply H2; [reflexivity|discriminate].
  - apply H3. discriminate.
Defined.

(** ** Connection attempts *)



(** ** How long an iteration takes *)


(** ** The display *)



(** * The plain BLE client *)

Lemma client_trace_emit (ev : IO) (m : Client.Machine) :
  Client.trace (Client.emit ev m) = ev :: Client.trace m.
Proof. open_client m. reflexivity. Qed.

Lemma client_print_payload_filter (f : IO -> bool) (pData : list byte) :
  (forall n, f (EvSerialNum n) = false) ->
  (forall s, f (EvSerial s) = false) ->
  forall m, filter f (Client.trace (Client.print_payload pData m)) =
            filter f (Client.trace m).
Proof.
  intros Hn Hs. induction pData as [|b rest IH]; intros m.
  - reflexivity.
  - simpl Client.print_payload.
    unfold Client.andthen, Client.Serial_printNum, Client.Serial_print.
    rewrite IH, !client_trace_emit. simpl filter. rewrite Hs, Hn.
    reflexivity.
Qed.

Lemma client_print_payload_globals (pData : list byte) :
  forall m, Client.globals (Client.print_payload pData m) = Client.globals m /\
            Client.now (Client.print_payload pData m) = Client.now m.
Proof.
  induction pData as [|b rest IH]; intros m.
  - split; reflexivity.
  - simpl Client.print_payload.
    unfold Client.andthen, Client.Serial_printNum, Client.Serial_print.
    destruct (IH (Client.emit (EvSerial " ")
                    (Client.emit (EvSerialNum (u8 b)) m))) as (-> & ->).
    open_client m. split; reflexivity.
Qed.

(** The callback of the plain client, on its variables. *)
Lemma client_callback_globals (pData : list byte) (m : Client.Machine) :
  Client.globals (Client.heartRateNotifyCallback pData m) =
  (if Z.of_nat (List.length pData) <? 2
   then Client.globals m
   else (Client.doConnect m, Client.connected m, u8 (nth 1 pData x00), true)).
Proof.
  unfold Client.heartRateNotifyCallback.
  destruct (Z.of_nat (List.length pData) <? 2).
  - open_client m. reflexivity.
  - unfold Client.andthen, Client.Serial_print.
    match goal with
    | |- Client.globals (Client.emit _ (Client.print_payload ?p ?x)) = _ =>
        destruct (client_print_payload_globals p x) as (G & _);
        transitivity (Client.globals (Client.print_payload p x));
        [generalize (Client.print_payload p x); intros y; open_client y;
         reflexivity|rewrite G]
    end.
    open_client m. reflexivity.
Qed.

Lemma client_callback_filter (f : IO -> bool) (pData : list byte)
      (m : Client.Machine) :
  (forall n, f (EvSerialNum n) = false) ->
  (forall s, f (EvSerial s) = false) ->
  filter f (Client.trace (Client.heartRateNotifyCallback pData m)) =
  filter f (Client.trace m).
Proof.
  intros Hn Hs. unfold Client.heartRateNotifyCallback.
  destruct (Z.of_nat (List.length pData) <? 2).
  - unfold Client.Serial_print. rewrite client_trace_emit. simpl.
    rewrite Hs. reflexivity.
  - unfold Client.andthen, Client.Serial_print.
    rewrite client_trace_emit. simpl filter. rewrite Hs.
    rewrite (client_print_payload_filter f pData Hn Hs), client_trace_emit.
    simpl filter. rewrite Hs. open_client m. reflexivity.
Qed.

(** No step after [setup] starts a scan. *)
Lemma client_step_scans (a : Client.Action) (m : Client.Machine) :
  Client.scans (Client.step a m) = Client.scans m.
Proof.
  destruct a as [e|pData|]; unfold Client.scans.
  - open_client m. destruct e as [hit st srv ct].
    destruct dc, nh; try (destruct srv); reflexivity.
  - simpl Client.step. unfold count_events.
    rewrite client_callback_filter by (intros; reflexivity). reflexivity.
  - open_client m. reflexivity.
Qed.

(** The plain client scans exactly once.  Whatever happens after
    [setup()], the output holds exactly one start of a scan, the one of
    [setup()] itself: [loop()] never scans again, neither after a failed
    connection attempt nor after the link is lost. *)
Theorem client_scans_once (e : Env) (acts : list Client.Action) :
  Client.scans (Client.run acts (Client.setup e Client.boot)) = 1%nat.
Proof.
  assert (G : forall m, Client.scans (Client.run acts m) = Client.scans m).
  { induction acts as [|a rest IH]; intros m; [reflexivity|].
    simpl Client.run. fold (Client.run rest (Client.step a m)).
    rewrite IH. apply client_step_scans. }
  rewrite G. destruct e as [hit st srv ct]. destruct hit; reflexivity.
Qed.

Lemma client_step_idle (a : Client.Action) (m : Client.Machine) :
  Client.doConnect m = false ->
  Client.doConnect (Client.step a m) = false /\
  Client.attempts (Client.step a m) = Client.attempts m /\
  (Client.connected (Client.step a m) = true -> Client.connected m = true).
Proof.
  intros Hd. destruct a as [e|pData|].
  - open_client m. simpl in Hd. subst dc. destruct nh; conjs; try reflexivity;
      intros H; exact H.
  - simpl Client.step.
    pose proof (client_callback_globals pData m) as G.
    unfold Client.attempts, count_events.
    rewrite client_callback_filter by (intros; reflexivity).
    destruct (Z.of_nat (List.length pData) <? 2);
      unfold Client.globals in G; injection G; intros _ _ Gc Gd;
      rewrite Gc, Gd; conjs; try assumption; try reflexivity;
      intros H; exact H.
  - open_client m. simpl in Hd. subst dc. conjs; try reflexivity.
    intros H. discriminate H.
Qed.

(** The plain client never reconnects.  Once [doConnect] is false (after a
    scan that found nothing, or after a successful connection), it stays
    false whatever callbacks and iterations follow: no connection attempt
    is made any more, and [connected] can only go from true to false.  In
    particular, after the link is lost the sketch stays disconnected until
    the device is restarted. *)
Theorem client_never_reconnects (acts : list Client.Action)
        (m : Client.Machine) :
  Client.doConnect m = false ->
  Client.doConnect (Client.run acts m) = false /\
  Client.attempts (Client.run acts m) = Client.attempts m /\
  (Client.connected (Client.run acts m) = true -> Client.connected m = true).
Proof.
  revert m. induction acts as [|a rest IH]; intros m Hd.
  - conjs; try assumption; try reflexivity. intros H; exact H.
  - simpl Client.run. fold (Client.run rest (Client.step a m)).
    destruct (client_step_idle a m Hd) as (S1 & S2 & S3).
    destruct (IH _ S1) as (R1 & R2 & R3).
    conjs; [exact R1|congruence|intros H; apply S3, R3, H].
Qed.

Lemma client_never_reconnects_witness :
  Client.doConnect
    (Client.run [Client.Iterate env_hit; Client.Notify bpm135;
                 Client.Iterate env_hit] Client.dropped) = false /\
  Client.attempts
    (Client.run [Client.Iterate env_hit; Client.Notify bpm135;
                 Client.Iterate env_hit] Client.dropped) =
  Client.attempts Client.dropped.
Proof.
  destruct (client_never_reconnects
              [Client.Iterate env_hit; Client.Notify bpm135;
               Client.Iterate env_hit] Client.dropped eq_refl)
    as (H1 & H2 & _).
  split; assumption.
Defined.

(** The plain client shows every reading.  A notification of at least 2
    bytes is stored and flagged whatever its value, also 0 and also a
    value equal to the one held; the next iteration of [loop()] prints
    that value on the display and the serial port as its last output
    before the delay, and clears the flag. *)
Theorem client_shows_every_sample
        (b0 b1 : byte) (rest : list byte) (e : Env) (m : Client.Machine) :
  let m1 := Client.heartRateNotifyCallback (b0 :: b1 :: rest) m in
  Client.heartRateChar m1 = u8 b1 /\ Client.newHeartRate m1 = true /\
  Client.newHeartRate (Client.loop e m1) = false /\
  exists older,
    Client.trace (Client.loop e m1) =
    [EvDelay 1000; EvSerial crlf; EvSerialNum (u8 b1); EvSerial "HR:";
     EvLcd crlf; EvLcdNum (u8 b1); EvLcd "HR: "] ++ older.
Proof.
  intros m1.
  pose proof (client_callback_globals (b0 :: b1 :: rest) m) as G.
  fold m1 in G.
  replace (Z.of_nat (List.length (b0 :: b1 :: rest)) <? 2) with false in G
    by (symmetry; apply Z.ltb_ge; simpl List.length; lia).
  change (nth 1 (b0 :: b1 :: rest) x00) with b1 in G.
  clearbody m1. open_client m1. unfold Client.globals in G. simpl in G.
  injection G. intros -> -> _ _. simpl. conjs; try reflexivity.
  - destruct e as [hit st srv ct]. destruct dc; try (destruct srv);
      reflexivity.
  - destruct e as [hit st srv ct]. destruct dc; try (destruct srv);
      eexists; reflexivity.
Qed.
